(** * Relation-classification feature extraction (examples/relation_classification/utils.py)

    A shallow embedding of [DatasetProcessor] and
    [convert_examples_to_features], and the properties of the rebuilt text,
    the character and token spans, the label vocabulary and the entity
    position ids that follow from the code.

    Conventions of the embedding:
    - a Python [int] is a [Z]; list and string slices follow Python for
      every pair of indices, negative ones included;
    - a Python [str] is a [string], one character per code point, for the
      code points below 256; a token is a [str];
    - the contents of [<set_type>.json] are given as a list of records, and
      the tokenizer as a record of functions;
    - a dictionary lookup that can raise [KeyError] returns a [result]. *)

From Stdlib Require Import ZArith String Ascii List Lia DecimalString DecimalNat.
From stdpp Require Import base list functions gmap strings sorting.

Local Open Scope string_scope.
Local Open Scope list_scope.
Local Open Scope Z_scope.

(** ** The Python built-ins the module relies on *)

Module Py.

(** An index of a slice, clamped as CPython does for a step of one:
    a negative index counts from the end, and both ends saturate. *)
Definition norm_index (n i : Z) : Z :=
  if i <? 0 then Z.max (i + n) 0 else Z.min i n.

(** [l[i:j]] *)
Definition slice {A} (l : list A) (i j : Z) : list A :=
  let n := Z.of_nat (length l) in
  let a := norm_index n i in
  let b := norm_index n j in
  take (Z.to_nat (b - a)) (drop (Z.to_nat a) l).

(** [l[i:]] *)
Definition slice_from {A} (l : list A) (i : Z) : list A :=
  drop (Z.to_nat (norm_index (Z.of_nat (length l)) i)) l.

(** [l[:j]] *)
Definition slice_to {A} (l : list A) (j : Z) : list A :=
  take (Z.to_nat (norm_index (Z.of_nat (length l)) j)) l.

(** [list(range(a, b))] *)
Definition range (a b : Z) : list Z :=
  (λ k : nat, a + Z.of_nat k) <$> seq 0 (Z.to_nat (b - a)).

(** [[x] * n]: empty when [n] is not positive. *)
Definition repeat {A} (x : A) (n : Z) : list A := replicate (Z.to_nat n) x.

(** [len(s)] of a [str] *)
Definition len (s : string) : Z := Z.of_nat (String.length s).

(** [s[i:j]], [s[i:]] of a [str] *)
Definition str_slice (s : string) (i j : Z) : string :=
  string_of_list_ascii (slice (list_ascii_of_string s) i j).
Definition str_slice_from (s : string) (i : Z) : string :=
  string_of_list_ascii (slice_from (list_ascii_of_string s) i).

(** [sep.join(ls)] *)
Definition join (sep : string) (ls : list string) : string :=
  String.concat sep ls.

(** [c.isspace()] on the code points below 256. *)
Definition isspace (c : ascii) : bool :=
  let n := N_of_ascii c in
  ((9 <=? n) && (n <=? 13) || (28 <=? n) && (n <=? 32)
   || (n =? 133) || (n =? 160))%N.

(** The characters after the last one that is not white space are
    dropped. *)
Fixpoint rstrip_list (l : list ascii) : list ascii :=
  match l with
  | [] => []
  | c :: l' =>
      match rstrip_list l' with
      | [] => if isspace c then [] else [c]
      | r => c :: r
      end
  end.

(** [s.rstrip()] *)
Definition rstrip (s : string) : string :=
  string_of_list_ascii (rstrip_list (list_ascii_of_string s)).

(** [str(i)] / [%s] of a non-negative integer *)
Definition str_of_nat (i : nat) : string :=
  NilEmpty.string_of_uint (Nat.to_uint i).

End Py.

(** ** The data model *)

Definition ENTITY_TYPES : list string :=
  ["CAUSE_OF_DEATH"; "CITY"; "COUNTRY"; "CRIMINAL_CHARGE"; "DATE"; "DURATION";
   "IDEOLOGY"; "LOCATION"; "MISC"; "NATIONALITY"; "NUMBER"; "ORGANIZATION";
   "PERSON"; "RELIGION"; "STATE_OR_PROVINCE"; "TITLE"; "URL"].
Definition HEAD_TOKEN : string := "[HEAD]".
Definition TAIL_TOKEN : string := "[TAIL]".

(** One object of the JSON array of a split. *)
Record Item := {
  token : list string;
  subj_start : Z;
  subj_end : Z;
  obj_start : Z;
  obj_end : Z;
  subj_type : string;
  obj_type : string;
  relation : string
}.

Record InputExample := {
  id : string;
  text : string;
  span_a : Z * Z;
  span_b : Z * Z;
  type_a : string;
  type_b : string;
  label : string
}.

Record InputFeatures := {
  word_ids : list Z;
  word_segment_ids : list Z;
  word_attention_mask : list Z;
  entity_ids : list Z;
  entity_position_ids : list (list Z);
  entity_segment_ids : list Z;
  entity_attention_mask : list Z;
  f_label : nat
}.

(** ** [DatasetProcessor] *)

Module DatasetProcessor.

(** The keys of [token_spans] and [char_spans]. *)
Inductive entity := subj | obj.

#[global] Instance entity_eq_dec : EqDecision entity.
Proof. solve_decision. Defined.

Definition token_spans (item : Item) (e : entity) : Z * Z :=
  match e with
  | subj => (subj_start item, subj_end item + 1)
  | obj => (obj_start item, obj_end item + 1)
  end.

Definition entity_order (item : Item) : list entity :=
  if (token_spans item subj).1 <? (token_spans item obj).1
  then [subj; obj] else [obj; subj].

(** The variables the loop over [entity_order] updates. *)
Record loop_state := {
  l_text : string;
  l_cur : Z;
  l_char_spans : entity → Z * Z
}.

(** The body of the loop, for one [target_entity]. *)
Definition place (item : Item) (st : loop_state) (target_entity : entity)
  : loop_state :=
  let tokens := token item in
  let token_span := token_spans item target_entity in
  let text := l_text st +:+ Py.join " " (Py.slice tokens (l_cur st) token_span.1) in
  let text := if bool_decide (text = "") then text else text +:+ " " in
  let start := Py.len text in
  let text :=
    text +:+ (Py.join " " (Py.slice tokens token_span.1 token_span.2) +:+ " ") in
  let stop := Py.len text in
  {| l_text := text;
     l_cur := token_span.2;
     l_char_spans := <[target_entity := (start, stop)]> (l_char_spans st) |}.

(** [char_spans] starts as [dict(subj=[None, None], obj=[None, None])];
    both entries are assigned by the loop, as [entity_order] lists both
    keys ([build_independent_of_placeholder] below), so the placeholder
    stored here is never read. *)
Definition unset : Z * Z := (0, 0).

Definition loop_init (placeholder : Z * Z) : loop_state :=
  {| l_text := ""; l_cur := 0; l_char_spans := λ _, placeholder |}.

Definition run_loop (placeholder : Z * Z) (item : Item) : loop_state :=
  foldl (place item) (loop_init placeholder) (entity_order item).

(** The text as it stands before the final [rstrip]. *)
Definition raw_text (item : Item) : string :=
  let st := run_loop unset item in
  l_text st +:+ Py.join " " (Py.slice_from (token item) (l_cur st)).

(** One iteration of the loop over [enumerate(data)]. *)
Definition create_example (set_type : string) (i : nat) (item : Item)
  : InputExample :=
  let st := run_loop unset item in
  let text := l_text st +:+ Py.join " " (Py.slice_from (token item) (l_cur st)) in
  let text := Py.rstrip text in
  {| id := set_type +:+ "-" +:+ Py.str_of_nat i;
     text := text;
     span_a := l_char_spans st subj;
     span_b := l_char_spans st obj;
     type_a := subj_type item;
     type_b := obj_type item;
     label := relation item |}.

(** [_create_examples], on the parsed contents [data] of
    [<data_dir>/<set_type>.json]. *)
Definition _create_examples (set_type : string) (data : list Item)
  : list InputExample :=
  imap (create_example set_type) data.

Definition get_train_examples (train : list Item) : list InputExample :=
  _create_examples "train" train.

Definition get_dev_examples (dev : list Item) : list InputExample :=
  _create_examples "dev" dev.

Definition get_test_examples (test : list Item) : list InputExample :=
  _create_examples "test" test.

(** [get_label_list], on the parsed contents of [train.json]. *)
Definition get_label_list (train : list Item) : list string :=
  let labels : gset string :=
    foldl (λ labels example, labels ∪ {[ label example ]}) ∅
          (get_train_examples train) in
  let labels := labels ∖ {[ "no_relation" ]} in
  "no_relation" :: merge_sort String.le (elements labels).

End DatasetProcessor.

Import DatasetProcessor.

(** ** The tokenizer, an opaque collaborator *)

Record Tokenizer := {
  (** [isinstance(tokenizer, RobertaTokenizer)] *)
  is_roberta : bool;
  (** [tokenizer.tokenize(text)] *)
  tokenizer_tokenize : string → list string;
  (** [tokenizer.tokenize(text, add_prefix_space=True)] *)
  tokenizer_tokenize_prefix_space : string → list string;
  convert_tokens_to_ids : list string → list Z;
  cls_token : string;
  sep_token : string
}.

(** ** Failing dictionary lookups *)

Inductive result (A : Type) : Type :=
| Ok (a : A)
| KeyError (key : string).
Arguments Ok {A} a.
Arguments KeyError {A} key.

#[global] Instance result_bind : MBind result := λ A B k r,
  match r with
  | Ok a => k a
  | KeyError key => KeyError key
  end.

(** [d[key]] *)
Definition getitem {V} (d : gmap string V) (key : string) : result V :=
  match d !! key with
  | Some v => Ok v
  | None => KeyError key
  end.

(** A loop that appends one result per element and stops at the first
    exception. *)
Fixpoint for_each {A B} (body : A → result B) (l : list A) : result (list B) :=
  match l with
  | [] => Ok []
  | x :: l' =>
      y ← body x;
      ys ← for_each body l';
      Ok (y :: ys)
  end.

(** ** [convert_examples_to_features] *)

Module Encoder.

(** [enumerate(l)] *)
Definition enumerate {A} (l : list A) : list (nat * A) :=
  imap (λ i x, (i, x)) l.

(** [{k: f(i) for i, k in enumerate(l)}]: the entries are stored one
    after the other, so a later occurrence of a key overwrites an earlier
    one. *)
Definition dict_of_enumerate {V} (f : nat → V) (l : list string)
  : gmap string V :=
  foldl (λ m p, <[p.2 := f p.1]> m) ∅ (enumerate l).

(** [{l: i for i, l in enumerate(label_list)}] *)
Definition label_map (label_list : list string) : gmap string nat :=
  dict_of_enumerate (λ i, i) label_list.

(** [{t: i + 1 for i, t in enumerate(ENTITY_TYPES)}] *)
Definition type_map : gmap string Z :=
  dict_of_enumerate (λ i, Z.of_nat i + 1) ENTITY_TYPES.

(** The attribute names ['span_a'] and ['span_b']. *)
Inductive span_name := name_span_a | name_span_b.

#[global] Instance span_name_eq_dec : EqDecision span_name.
Proof. solve_decision. Defined.

Definition getattr (example : InputExample) (n : span_name) : Z * Z :=
  match n with
  | name_span_a => span_a example
  | name_span_b => span_b example
  end.

(** [HEAD_TOKEN if span_name == 'span_a' else TAIL_TOKEN] *)
Definition marker (n : span_name) : string :=
  if decide (n = name_span_a) then HEAD_TOKEN else TAIL_TOKEN.

Definition span_order (example : InputExample) : list span_name :=
  if (span_a example).2 <? (span_b example).2
  then [name_span_a; name_span_b] else [name_span_b; name_span_a].

Record loop_state := {
  l_tokens : list string;
  l_cur : Z;
  (** [token_spans], which starts as the empty dictionary *)
  l_token_spans : span_name → option (Z * Z)
}.

Section with_tokenizer.
Variable tokenizer : Tokenizer.
Variable max_mention_length : Z.
Variable use_entity_type_token : bool.
Variable use_marker_token : bool.

(** The local function [tokenize]. *)
Definition tokenize (text : string) : list string :=
  if is_roberta tokenizer
  then tokenizer_tokenize_prefix_space tokenizer text
  else tokenizer_tokenize tokenizer text.

(** The body of the loop over [span_order]. *)
Definition locate (example : InputExample) (st : loop_state) (n : span_name)
  : loop_state :=
  let span := getattr example n in
  let tokens :=
    l_tokens st ++ tokenize (Py.str_slice (text example) (l_cur st) span.1) in
  let start := Z.of_nat (length tokens) in
  let tokens := if use_marker_token then tokens ++ [marker n] else tokens in
  let tokens :=
    tokens ++ tokenize (Py.str_slice (text example) span.1 span.2) in
  let tokens := if use_marker_token then tokens ++ [marker n] else tokens in
  {| l_tokens := tokens;
     l_cur := span.2;
     l_token_spans :=
       <[n := Some (start, Z.of_nat (length tokens))]> (l_token_spans st) |}.

Definition loop_init : loop_state :=
  {| l_tokens := [cls_token tokenizer]; l_cur := 0; l_token_spans := λ _, None |}.

Definition run_loop (example : InputExample) : loop_state :=
  foldl (locate example) loop_init (span_order example).

(** [tokens] as passed to [convert_tokens_to_ids]. *)
Definition final_tokens (example : InputExample) : list string :=
  let st := run_loop example in
  (l_tokens st ++ tokenize (Py.str_slice_from (text example) (l_cur st)))
    ++ [sep_token tokenizer].

(** [token_spans[span_name]] after the loop. *)
Definition token_span (example : InputExample) (n : span_name)
  : result (Z * Z) :=
  match l_token_spans (run_loop example) n with
  | Some span => Ok span
  | None => KeyError (match n with
                      | name_span_a => "span_a"
                      | name_span_b => "span_b"
                      end)
  end.

(** The body of the loop over [('span_a', 'span_b')]. *)
Definition position_ids (span : Z * Z) : list Z :=
  let position_ids := Py.slice_to (Py.range span.1 span.2) max_mention_length in
  position_ids ++ Py.repeat (-1) (max_mention_length - span.2 + span.1).

(** The body of the loop over [examples]. *)
Definition convert_example (label_list : list string) (example : InputExample)
  : result InputFeatures :=
  let tokens := final_tokens example in
  let word_ids := convert_tokens_to_ids tokenizer tokens in
  let word_attention_mask := Py.repeat 1 (Z.of_nat (length tokens)) in
  let word_segment_ids := Py.repeat 0 (Z.of_nat (length tokens)) in
  entity_ids ←
    (if use_entity_type_token
     then a ← getitem type_map (type_a example);
          b ← getitem type_map (type_b example);
          Ok [a; b]
     else Ok [1; 1]);
  entity_position_ids ←
    for_each (λ n, span ← token_span example n; Ok (position_ids span))
             [name_span_a; name_span_b];
  let entity_segment_ids := [0; 0] in
  let entity_attention_mask := [1; 1] in
  label ← getitem (label_map label_list) (label example);
  Ok {| word_ids := word_ids;
        word_segment_ids := word_segment_ids;
        word_attention_mask := word_attention_mask;
        entity_ids := entity_ids;
        entity_position_ids := entity_position_ids;
        entity_segment_ids := entity_segment_ids;
        entity_attention_mask := entity_attention_mask;
        f_label := label |}.

Definition convert_examples_to_features
    (examples : list InputExample) (label_list : list string)
  : result (list InputFeatures) :=
  for_each (convert_example label_list) examples.

End with_tokenizer.

End Encoder.

(** ** Concrete inputs *)

Definition john_item : Item :=
  {| token := ["John"; "lives"; "in"; "Paris"];
     subj_start := 0; subj_end := 0; obj_start := 3; obj_end := 3;
     subj_type := "PERSON"; obj_type := "CITY"; relation := "lives_in" |}.

Definition john_example : InputExample := create_example "train" 0 john_item.

(** A tokenizer that splits at white space and numbers every token by its
    length. *)
Definition words_tokenizer : Tokenizer :=
  {| is_roberta := false;
     tokenizer_tokenize := String.words;
     tokenizer_tokenize_prefix_space := String.words;
     convert_tokens_to_ids := map (λ t, Py.len t);
     cls_token := "[CLS]";
     sep_token := "[SEP]" |}.

(** ** Vocabulary of the statements *)

(** [tokens[start:end + 1]], the tokens of an entity, and their
    space-join. *)
Definition entity_tokens (item : Item) (e : entity) : list string :=
  Py.slice (token item) (token_spans item e).1 (token_spans item e).2.

Definition entity_text (item : Item) (e : entity) : string :=
  Py.join " " (entity_tokens item e).

(** The inclusive token span of an entity lies inside the token list. *)
Definition in_bounds (item : Item) : Prop :=
  (0 ≤ subj_start item ∧ subj_start item ≤ subj_end item
   ∧ subj_end item < Z.of_nat (length (token item)))
  ∧ (0 ≤ obj_start item ∧ obj_start item ≤ obj_end item
     ∧ obj_end item < Z.of_nat (length (token item))).

Definition non_overlapping (item : Item) : Prop :=
  subj_end item < obj_start item ∨ obj_end item < subj_start item.

(** Two half-open ranges that share no position. *)
Definition disjoint_spans (a b : Z * Z) : Prop := a.2 ≤ b.1 ∨ b.2 ≤ a.1.

(** The span of a built example that belongs to an entity. *)
Definition span_of (example : InputExample) (e : entity) : Z * Z :=
  match e with
  | subj => span_a example
  | obj => span_b example
  end.

(** The text up to the start of an entity inside [place]: what was there,
    the tokens between, and a space unless nothing precedes. *)
Definition padded (item : Item) (st : DatasetProcessor.loop_state) (e : entity)
  : string :=
  let t := DatasetProcessor.l_text st
           +:+ Py.join " " (Py.slice (token item) (DatasetProcessor.l_cur st)
                                     (token_spans item e).1) in
  if bool_decide (t = "") then t else t +:+ " ".

(** A record whose two entities start at the same token. *)
Definition tie_item : Item :=
  {| token := ["New"; "York"; "is"; "big"];
     subj_start := 0; subj_end := 1; obj_start := 0; obj_end := 0;
     subj_type := "CITY"; obj_type := "LOCATION"; relation := "no_relation" |}.

(** The marker tokens put on each side of an entity, if any. *)
Definition markers (use_marker_token : bool) (n : Encoder.span_name)
  : list string :=
  if use_marker_token then [Encoder.marker n] else [].

(** The tokens of an entity in the final sequence: the subword tokens of
    the text of its span, between its markers. *)
Definition segment (tokenizer : Tokenizer) (use_marker_token : bool)
    (example : InputExample) (n : Encoder.span_name) : list string :=
  markers use_marker_token n
  ++ Encoder.tokenize tokenizer
       (Py.str_slice (text example) (Encoder.getattr example n).1
                     (Encoder.getattr example n).2)
  ++ markers use_marker_token n.

(** The tokens of the text between the last position and the start of a
    span, inside [locate]. *)
Definition gap (tokenizer : Tokenizer) (example : InputExample)
    (st : Encoder.loop_state) (n : Encoder.span_name) : list string :=
  Encoder.tokenize tokenizer
    (Py.str_slice (text example) (Encoder.l_cur st) (Encoder.getattr example n).1).

(** The position of an entity in [entity_position_ids]. *)
Definition entity_index (n : Encoder.span_name) : nat :=
  match n with
  | Encoder.name_span_a => 0
  | Encoder.name_span_b => 1
  end.

(** An example whose two spans start at the same character. *)
Definition same_start_example : InputExample :=
  {| id := "train-0"; text := "New York is big";
     span_a := (0, 8); span_b := (0, 3);
     type_a := "CITY"; type_b := "LOCATION"; label := "no_relation" |}.

(** An example whose first entity type is not one of [ENTITY_TYPES]. *)
Definition untyped_example : InputExample :=
  {| id := "train-0"; text := "John lives in Paris";
     span_a := (0, 5); span_b := (14, 20);
     type_a := "HUMAN"; type_b := "CITY"; label := "lives_in" |}.

(** The features of [john_example] under [words_tokenizer], with markers
    and entity types, for four and for two position slots. *)
Definition john_vocabulary : list string := ["no_relation"; "lives_in"].

Definition john_features (positions : list (list Z)) : InputFeatures :=
  {| word_ids := [5; 6; 4; 6; 5; 2; 6; 5; 6; 5];
     word_segment_ids := [0; 0; 0; 0; 0; 0; 0; 0; 0; 0];
     word_attention_mask := [1; 1; 1; 1; 1; 1; 1; 1; 1; 1];
     entity_ids := [13; 2];
     entity_position_ids := positions;
     entity_segment_ids := [0; 0];
     entity_attention_mask := [1; 1];
     f_label := 1 |}.

(** The span attribute under which the builder stores an entity. *)
Definition span_name_of (e : entity) : Encoder.span_name :=
  match e with
  | subj => Encoder.name_span_a
  | obj => Encoder.name_span_b
  end.

(** A record whose subj span lies beyond the end of the token list. *)
Definition beyond_item : Item :=
  {| token := ["Rome"];
     subj_start := 5; subj_end := 6; obj_start := 0; obj_end := 0;
     subj_type := "PERSON"; obj_type := "CITY"; relation := "no_relation" |}.


(** The key of the first lookup of [convert_example] that fails, in the
    order in which the code does the lookups: the type of the first entity,
    the type of the second entity (both only when entity types are encoded),
    then the label. *)
Definition first_missing_key (use_entity_type_token : bool)
    (label_list : list string) (example : InputExample) : option string :=
  if use_entity_type_token && bool_decide (type_a example ∉ ENTITY_TYPES)
  then Some (type_a example)
  else if use_entity_type_token && bool_decide (type_b example ∉ ENTITY_TYPES)
  then Some (type_b example)
  else if bool_decide (label example ∉ label_list)
  then Some (label example)
  else None.

(** * Properties *)

(** ** Slices, lengths and [rstrip] *)

Section py_facts.
Context {A : Type}.
Implicit Types l P S R : list A.

Lemma norm_index_nonneg n i : 0 ≤ i → Py.norm_index n i = Z.min i n.
Proof. intros Hi. unfold Py.norm_index. destruct (Z.ltb_spec i 0); lia. Qed.

Lemma slice_nonneg l i j :
  0 ≤ i → 0 ≤ j →
  Py.slice l i j
  = take (Z.to_nat (Z.min j (Z.of_nat (length l)))
          - Z.to_nat (Z.min i (Z.of_nat (length l))))%nat
         (drop (Z.to_nat (Z.min i (Z.of_nat (length l)))) l).
Proof.
  intros Hi Hj. unfold Py.slice. cbv zeta.
  rewrite !norm_index_nonneg by done. f_equal. lia.
Qed.

Lemma slice_middle P S R :
  Py.slice (P ++ S ++ R) (Z.of_nat (length P))
           (Z.of_nat (length P) + Z.of_nat (length S)) = S.
Proof.
  rewrite slice_nonneg by lia. rewrite !length_app.
  replace (Z.to_nat (Z.min (Z.of_nat (length P)) _)) with (length P) by lia.
  replace (Z.to_nat (Z.min (Z.of_nat (length P) + Z.of_nat (length S)) _)
           - length P)%nat with (length S) by lia.
  rewrite drop_app_length. apply take_app_length.
Qed.

Lemma slice_clipped P S j :
  Z.of_nat (length P + length S) ≤ j →
  Py.slice (P ++ S) (Z.of_nat (length P)) j = S.
Proof.
  intros Hj. rewrite slice_nonneg by lia. rewrite !length_app.
  replace (Z.to_nat (Z.min (Z.of_nat (length P)) _)) with (length P) by lia.
  replace (Z.to_nat (Z.min j _) - length P)%nat with (length S) by lia.
  rewrite drop_app_length. apply take_ge. lia.
Qed.

Lemma slice_beyond l i j : Z.of_nat (length l) ≤ i → Py.slice l i j = [].
Proof.
  intros Hi. unfold Py.slice. cbv zeta.
  rewrite (norm_index_nonneg _ i) by lia.
  rewrite drop_ge by lia. apply take_nil.
Qed.

(** For an inclusive token span inside the list, the slice is the run of
    tokens from [i] to [j]. *)
Lemma slice_in_bounds l i j :
  0 ≤ i → i ≤ j → j < Z.of_nat (length l) →
  Py.slice l i (j + 1) = take (Z.to_nat (j - i + 1)) (drop (Z.to_nat i) l)
  ∧ Z.of_nat (length (Py.slice l i (j + 1))) = j - i + 1.
Proof.
  intros Hi Hij Hj. rewrite slice_nonneg by lia.
  replace (Z.to_nat (Z.min i _)) with (Z.to_nat i) by lia.
  replace (Z.to_nat (Z.min (j + 1) _) - Z.to_nat i)%nat
    with (Z.to_nat (j - i + 1)) by lia.
  split; [done|]. rewrite length_take, length_drop. lia.
Qed.

Lemma slice_to_nonneg l j :
  0 ≤ j → Py.slice_to l j = take (Z.to_nat j) l.
Proof.
  intros Hj. unfold Py.slice_to. rewrite norm_index_nonneg by done.
  destruct (Z.le_gt_cases j (Z.of_nat (length l))).
  - by rewrite Z.min_l.
  - rewrite Z.min_r by lia. rewrite !take_ge; [done|lia..].
Qed.
End py_facts.

Lemma list_ascii_of_string_app (s t : string) :
  list_ascii_of_string (s +:+ t) = list_ascii_of_string s ++ list_ascii_of_string t.
Proof. induction s as [|c s IH]; simpl; [done|]. by rewrite IH. Qed.

Lemma length_list_ascii_of_string (s : string) :
  length (list_ascii_of_string s) = String.length s.
Proof. induction s as [|c s IH]; simpl; [done|]. by rewrite IH. Qed.

Lemma len_list (s : string) : Py.len s = Z.of_nat (length (list_ascii_of_string s)).
Proof. unfold Py.len. by rewrite length_list_ascii_of_string. Qed.

Lemma len_app (s t : string) : Py.len (s +:+ t) = Py.len s + Py.len t.
Proof. rewrite !len_list, list_ascii_of_string_app, length_app. lia. Qed.

Lemma len_nonneg (s : string) : 0 ≤ Py.len s.
Proof. unfold Py.len. lia. Qed.

Lemma len_space : Py.len " " = 1.
Proof. reflexivity. Qed.

Lemma app_assoc_str (s t u : string) : (s +:+ t) +:+ u = s +:+ (t +:+ u).
Proof.
  induction s as [|c s IH]; [done|].
  change (String c ((s +:+ t) +:+ u) = String c (s +:+ (t +:+ u))).
  by rewrite IH.
Qed.

Section rstrip_facts.
Implicit Types l r : list ascii.

Lemma rstrip_list_app l r :
  Py.rstrip_list (l ++ r)
  = match Py.rstrip_list r with
    | [] => Py.rstrip_list l
    | r' => l ++ r'
    end.
Proof.
  induction l as [|c l IH]; simpl.
  - by destruct (Py.rstrip_list r).
  - rewrite IH. destruct (Py.rstrip_list r) as [|d r']; [done|].
    by destruct l.
Qed.

Lemma rstrip_list_prefix l : Py.rstrip_list l `prefix_of` l.
Proof.
  induction l as [|c l IH]; simpl; [done|].
  destruct (Py.rstrip_list l) as [|d r'].
  - destruct (Py.isspace c); [apply prefix_nil|].
    apply (prefix_cons c [] l), prefix_nil.
  - by apply prefix_cons.
Qed.

Lemma rstrip_list_length l : (length (Py.rstrip_list l) ≤ length l)%nat.
Proof. apply prefix_length, rstrip_list_prefix. Qed.

Lemma rstrip_list_full l :
  length (Py.rstrip_list l) = length l → Py.rstrip_list l = l.
Proof.
  intros Hlen. destruct (rstrip_list_prefix l) as [k Hk].
  assert (length k = 0%nat) as Hk0.
  { apply (f_equal length) in Hk. rewrite length_app in Hk. lia. }
  destruct k; [|done]. by rewrite app_nil_r in Hk.
Qed.

(** The slice of a right-stripped text at the offsets of a segment of the
    text before stripping. *)
Lemma slice_rstrip_list (P S R : list ascii) :
  let t := Py.rstrip_list (P ++ S ++ R) in
  let a := Z.of_nat (length P) in
  let b := Z.of_nat (length P) + Z.of_nat (length S) in
  Py.slice t a b = if b <=? Z.of_nat (length t) then S else Py.rstrip_list S.
Proof.
  cbv zeta. rewrite rstrip_list_app.
  pose proof (rstrip_list_length P) as HP.
  pose proof (rstrip_list_length S) as HS.
  destruct (Py.rstrip_list (S ++ R)) as [|d SR] eqn:HSR.
  - (* the segment and all that follows is white space *)
    rewrite rstrip_list_app in HSR.
    destruct (Py.rstrip_list R) as [|e R'] eqn:HR.
    + rewrite HSR. rewrite slice_beyond by lia.
      destruct (Z.leb_spec (Z.of_nat (length P) + Z.of_nat (length S))
                  (Z.of_nat (length (Py.rstrip_list P)))); [|done].
      destruct S; [done|simpl in *; lia].
    + by destruct S.
  - rewrite <-HSR. clear d SR HSR. rewrite rstrip_list_app.
    destruct (Py.rstrip_list R) as [|e R'] eqn:HR.
    + (* what follows the segment is white space *)
      rewrite slice_clipped by lia. rewrite length_app.
      destruct (Z.leb_spec (Z.of_nat (length P) + Z.of_nat (length S))
                  (Z.of_nat (length P + length (Py.rstrip_list S)))); [|done].
      apply rstrip_list_full. lia.
    + rewrite slice_middle. rewrite !length_app.
      destruct (Z.leb_spec (Z.of_nat (length P) + Z.of_nat (length S))
                  (Z.of_nat (length P + (length S + length (e :: R')))));
        [done|lia].
Qed.
End rstrip_facts.

(** The same on strings. *)
Lemma str_slice_rstrip (P S R : string) :
  let t := Py.rstrip (P +:+ (S +:+ R)) in
  Py.str_slice t (Py.len P) (Py.len P + Py.len S)
  = if Py.len P + Py.len S <=? Py.len t then S else Py.rstrip S.
Proof.
  cbv zeta. unfold Py.str_slice, Py.rstrip.
  rewrite !len_list, !list_ascii_of_string_of_list_ascii.
  rewrite !list_ascii_of_string_app, slice_rstrip_list.
  case_match; [|done]. apply string_of_list_ascii_of_string.
Qed.

Lemma str_slice_middle (P S R : string) :
  Py.str_slice (P +:+ (S +:+ R)) (Py.len P) (Py.len P + Py.len S) = S.
Proof.
  unfold Py.str_slice. rewrite !len_list, !list_ascii_of_string_app.
  rewrite slice_middle. apply string_of_list_ascii_of_string.
Qed.

(** ** The example builder *)

Section builder_facts.
Variable item : Item.

Lemma place_text st e :
  DatasetProcessor.l_text (place item st e)
  = padded item st e +:+ (entity_text item e +:+ " ").
Proof. reflexivity. Qed.

Lemma place_span st e :
  DatasetProcessor.l_char_spans (place item st e) e
  = (Py.len (padded item st e),
     Py.len (padded item st e) + Py.len (entity_text item e +:+ " ")).
Proof.
  unfold place. cbn [DatasetProcessor.l_char_spans].
  rewrite fn_lookup_insert, len_app. reflexivity.
Qed.

Lemma place_span_other st e e' :
  e' ≠ e →
  DatasetProcessor.l_char_spans (place item st e) e'
  = DatasetProcessor.l_char_spans st e'.
Proof.
  intros Hne. unfold place. cbn [DatasetProcessor.l_char_spans].
  by rewrite fn_lookup_insert_ne.
Qed.

Lemma padded_extends st e :
  ∃ g, padded item st e = DatasetProcessor.l_text st +:+ g.
Proof.
  unfold padded. cbv zeta. case_bool_decide.
  - eauto.
  - eexists. apply app_assoc_str.
Qed.

(** Two iterations of the loop, for two different entities: each entity
    text, followed by a space, sits in the text at its recorded span, and
    the second starts where the first has ended or later. *)
Lemma place_twice st e1 e2 :
  e1 ≠ e2 →
  let st2 := place item (place item st e1) e2 in
  ∃ P1 g P2,
    P2 = (P1 +:+ (entity_text item e1 +:+ " ")) +:+ g
    ∧ DatasetProcessor.l_text st2 = P2 +:+ (entity_text item e2 +:+ " ")
    ∧ DatasetProcessor.l_char_spans st2 e1
      = (Py.len P1, Py.len P1 + Py.len (entity_text item e1 +:+ " "))
    ∧ DatasetProcessor.l_char_spans st2 e2
      = (Py.len P2, Py.len P2 + Py.len (entity_text item e2 +:+ " ")).
Proof.
  intros Hne st2.
  destruct (padded_extends (place item st e1) e2) as [g Hg].
  exists (padded item st e1), g, (padded item (place item st e1) e2).
  split; [by rewrite Hg, place_text|].
  split; [apply place_text|].
  split; [|apply place_span].
  unfold st2. rewrite place_span_other by done. apply place_span.
Qed.

(** The loop runs [place] for the two entities, in one order or the
    other. *)
Lemma run_loop_unfold p :
  ∃ e1 e2, e1 ≠ e2 ∧ entity_order item = [e1; e2]
    ∧ DatasetProcessor.run_loop p item
      = place item (place item (DatasetProcessor.loop_init p) e1) e2.
Proof.
  unfold DatasetProcessor.run_loop, entity_order.
  destruct ((token_spans item subj).1 <? (token_spans item obj).1).
  - by exists subj, obj.
  - by exists obj, subj.
Qed.

(** The placeholder of [char_spans] is never read. *)
Lemma build_independent_of_placeholder p :
  DatasetProcessor.l_text (DatasetProcessor.run_loop p item)
  = DatasetProcessor.l_text (DatasetProcessor.run_loop unset item)
  ∧ DatasetProcessor.l_cur (DatasetProcessor.run_loop p item)
    = DatasetProcessor.l_cur (DatasetProcessor.run_loop unset item)
  ∧ ∀ e, DatasetProcessor.l_char_spans (DatasetProcessor.run_loop p item) e
         = DatasetProcessor.l_char_spans (DatasetProcessor.run_loop unset item) e.
Proof.
  unfold DatasetProcessor.run_loop, entity_order.
  destruct ((token_spans item subj).1 <? (token_spans item obj).1);
    (split; [reflexivity|split; [reflexivity|]]); intros []; reflexivity.
Qed.

(** Where an entity sits in the text as built before [rstrip]. *)
Lemma char_span_decomposition e :
  ∃ P R,
    raw_text item = P +:+ ((entity_text item e +:+ " ") +:+ R)
    ∧ DatasetProcessor.l_char_spans (DatasetProcessor.run_loop unset item) e
      = (Py.len P, Py.len P + Py.len (entity_text item e +:+ " ")).
Proof.
  unfold raw_text. cbv zeta.
  destruct (run_loop_unfold unset) as (e1 & e2 & Hne & _ & ->).
  destruct (place_twice (DatasetProcessor.loop_init unset) e1 e2 Hne)
    as (P1 & g & P2 & HP2 & -> & Hs1 & Hs2).
  set (tail := Py.join " " _).
  assert (e = e1 ∨ e = e2) as [->| ->] by (destruct e, e1, e2; auto; done).
  - exists P1, (g +:+ ((entity_text item e2 +:+ " ") +:+ tail)).
    split; [|done]. subst P2. by rewrite !app_assoc_str.
  - exists P2, tail. split; [|done]. by rewrite !app_assoc_str.
Qed.

(** The first entity of [entity_order] ends before the second starts,
    and both spans have positive length. *)
Lemma char_spans_ordered :
  ∃ e1 e2, e1 ≠ e2 ∧ entity_order item = [e1; e2] ∧
    let spans := DatasetProcessor.l_char_spans (DatasetProcessor.run_loop unset item) in
    0 ≤ (spans e1).1 ∧ (spans e1).1 < (spans e1).2
    ∧ (spans e1).2 ≤ (spans e2).1 ∧ (spans e2).1 < (spans e2).2.
Proof.
  destruct (run_loop_unfold unset) as (e1 & e2 & Hne & Ho & ->).
  exists e1, e2. split; [done|]. split; [done|]. cbv zeta.
  destruct (place_twice (DatasetProcessor.loop_init unset) e1 e2 Hne)
    as (P1 & g & P2 & HP2 & _ & -> & ->).
  cbn [fst snd]. subst P2. rewrite !len_app, len_space.
  pose proof (len_nonneg P1). pose proof (len_nonneg g).
  pose proof (len_nonneg (entity_text item e1)).
  pose proof (len_nonneg (entity_text item e2)). lia.
Qed.
End builder_facts.

(** For an in-bounds record the tokens of an entity are those from its
    start to its end, both included. *)
Lemma entity_tokens_in_bounds (item : Item) :
  in_bounds item →
  entity_tokens item subj
  = take (Z.to_nat (subj_end item - subj_start item + 1))
         (drop (Z.to_nat (subj_start item)) (token item))
  ∧ entity_tokens item obj
    = take (Z.to_nat (obj_end item - obj_start item + 1))
           (drop (Z.to_nat (obj_start item)) (token item)).
Proof.
  intros [(? & ? & ?) (? & ? & ?)]. unfold entity_tokens. cbn [token_spans fst snd].
  split; by apply slice_in_bounds.
Qed.

(** C1 (as stated, refuted): on the record John lives in Paris the builder
    does not give the spans (0,4) and (15,20). *)
Lemma create_example_john_not_as_claimed :
  ¬ (text (create_example "train" 0 john_item) = "John lives in Paris"
     ∧ span_a (create_example "train" 0 john_item) = (0, 4)
     ∧ span_b (create_example "train" 0 john_item) = (15, 20)).
Proof. intros (_ & Ha & _). vm_compute in Ha. discriminate Ha. Qed.

(** C1 (amended): for tokens John, lives, in, Paris with subj at token 0
    and obj at token 3, the builder gives the text "John lives in Paris",
    span_a = (0,5) and span_b = (14,20): each span covers the entity and the
    space that was appended after it. *)
Theorem create_example_john (set_type : string) (i : nat) :
  text (create_example set_type i john_item) = "John lives in Paris"
  ∧ span_a (create_example set_type i john_item) = (0, 5)
  ∧ span_b (create_example set_type i john_item) = (14, 20)
  ∧ type_a (create_example set_type i john_item) = "PERSON"
  ∧ type_b (create_example set_type i john_item) = "CITY"
  ∧ label (create_example set_type i john_item) = "lives_in".
Proof. repeat split; vm_compute; reflexivity. Qed.

(** C2 (as stated, refuted): on an in-bounds record with non-overlapping
    spans, the slice of the text at span_a is the subject followed by a
    space, not the space-join of the subject tokens. *)
Lemma span_slice_has_trailing_space :
  in_bounds john_item ∧ non_overlapping john_item
  ∧ Py.str_slice (text john_example) (span_a john_example).1 (span_a john_example).2
    ≠ Py.join " " (entity_tokens john_item subj).
Proof.
  split; [unfold in_bounds; simpl; lia|].
  split; [left; simpl; lia|].
  vm_compute. discriminate.
Qed.

(** C2 (amended): for every record and each entity, the slice at the
    recorded span of the text as built before the final rstrip is the
    space-join of the entity's tokens followed by one space; the final text
    is that text right-stripped, and its slice at the recorded span is the
    same string when the span ends inside the text, and that string
    right-stripped when the span ends past the end of the text. *)
Theorem span_slices (set_type : string) (i : nat) (item : Item) (e : entity) :
  let example := create_example set_type i item in
  let span := span_of example e in
  Py.str_slice (raw_text item) span.1 span.2 = entity_text item e +:+ " "
  ∧ text example = Py.rstrip (raw_text item)
  ∧ Py.str_slice (text example) span.1 span.2
    = if span.2 <=? Py.len (text example)
      then entity_text item e +:+ " "
      else Py.rstrip (entity_text item e +:+ " ").
Proof.
  cbv zeta.
  assert (span_of (create_example set_type i item) e
          = DatasetProcessor.l_char_spans (DatasetProcessor.run_loop unset item) e)
    as -> by (by destruct e).
  change (text (create_example set_type i item)) with (Py.rstrip (raw_text item)).
  destruct (char_span_decomposition item e) as (P & R & -> & ->).
  cbn [fst snd]. split; [apply str_slice_middle|]. split; [done|].
  apply str_slice_rstrip.
Qed.

(** C3 (as stated, refuted): when subj and obj start at the same token, the
    obj entity, not the subj entity, is placed first. *)
Lemma tie_places_obj_first :
  subj_start tie_item = obj_start tie_item
  ∧ entity_order tie_item ≠ [subj; obj]
  ∧ (span_b (create_example "train" 0 tie_item)).2
    ≤ (span_a (create_example "train" 0 tie_item)).1.
Proof. split; [done|]. split; [done|]. vm_compute. discriminate. Qed.

(** C3 (amended): the subj entity is placed first in the rebuilt text
    exactly when its start offset is strictly smaller than that of obj;
    otherwise, also when the start offsets are equal, the obj entity is
    placed first. The entity placed first ends before the other starts. *)
Theorem entity_order_by_start (set_type : string) (i : nat) (item : Item) :
  let example := create_example set_type i item in
  if subj_start item <? obj_start item
  then entity_order item = [subj; obj]
       ∧ (span_a example).2 ≤ (span_b example).1
  else entity_order item = [obj; subj]
       ∧ (span_b example).2 ≤ (span_a example).1.
Proof.
  cbv zeta. destruct (char_spans_ordered item) as (e1 & e2 & _ & Ho & Hs).
  cbv zeta in Hs. cbn [create_example span_a span_b].
  unfold entity_order in *. cbn [token_spans fst] in *.
  destruct (subj_start item <? obj_start item); simplify_eq; split; (done || lia).
Qed.

(** C8: every example the builder produces (in particular from a record
    with in-bounds, non-overlapping token spans) has character spans span_a
    and span_b that do not overlap and whose ends are strictly greater than
    their starts. *)
Theorem spans_invariant (set_type : string) (i : nat) (item : Item) :
  let example := create_example set_type i item in
  (span_a example).1 < (span_a example).2
  ∧ (span_b example).1 < (span_b example).2
  ∧ disjoint_spans (span_a example) (span_b example).
Proof.
  cbv zeta. destruct (char_spans_ordered item) as (e1 & e2 & Hne & _ & Hs).
  cbv zeta in Hs. cbn [create_example span_a span_b]. unfold disjoint_spans.
  destruct e1, e2; try done; lia.
Qed.

(** ** The label vocabulary *)

Section label_facts.

Lemma labels_fold (l : list InputExample) (acc : gset string) (x : string) :
  x ∈ foldl (λ labels example, labels ∪ {[ label example ]}) acc l
  ↔ x ∈ acc ∨ ∃ example, example ∈ l ∧ label example = x.
Proof.
  revert acc. induction l as [|ex l IH]; intros acc; simpl.
  - split; [auto|]. intros [?|(? & Hin & _)]; [done|]. by apply elem_of_nil in Hin.
  - rewrite IH, elem_of_union, elem_of_singleton. split.
    + intros [[?| ->]|(ex' & ? & ?)]; [by left|right..].
      * exists ex. split; [left|done].
      * exists ex'. split; [by right|done].
    + intros [?|(ex' & [->|?]%elem_of_cons & ?)]; [by left; left|by left; right|].
      right. by exists ex'.
Qed.

Lemma le_neq_ltb (a b : string) : String.le a b → a ≠ b → (a <? b)%string = true.
Proof.
  unfold String.le, String.leb, String.ltb. intros Hle Hne.
  destruct (a ?= b)%string eqn:Hc; [|done|done].
  by apply String.compare_eq_iff in Hc.
Qed.

Lemma StronglySorted_strict (l : list string) :
  StronglySorted String.le l → NoDup l →
  StronglySorted (λ a b, (a <? b)%string = true) l.
Proof.
  induction 1 as [|a l Hs IH Hall]; intros Hnd; [constructor|].
  apply NoDup_cons in Hnd as [Hnotin Hnd]. constructor; [by apply IH|].
  rewrite Forall_forall in Hall |- *. intros b Hb.
  apply le_neq_ltb; [by apply Hall|]. intros ->. by apply Hnotin.
Qed.

End label_facts.

(** C5: for every training split, [get_label_list] has no_relation at
    index 0, and the entries after it are strictly increasing in the
    lexicographic order (hence distinct) and are exactly the labels of the
    training examples other than no_relation. *)
Theorem get_label_list_spec (train : list Item) :
  get_label_list train !! 0%nat = Some "no_relation"
  ∧ StronglySorted (λ a b, (a <? b)%string = true) (drop 1 (get_label_list train))
  ∧ NoDup (drop 1 (get_label_list train))
  ∧ ∀ l, l ∈ drop 1 (get_label_list train)
         ↔ l ≠ "no_relation"
           ∧ ∃ example, example ∈ get_train_examples train ∧ label example = l.
Proof.
  unfold get_label_list. cbv zeta.
  set (labels := foldl _ _ _ ∖ _).
  change (drop 1 ("no_relation" :: ?l)) with l. split; [done|].
  assert (NoDup (merge_sort String.le (elements labels))) as Hnd.
  { rewrite merge_sort_Permutation. apply NoDup_elements. }
  split; [|split; [done|]].
  - apply StronglySorted_strict; [|done]. apply StronglySorted_merge_sort; apply _.
  - intros l. rewrite merge_sort_Permutation, elem_of_elements.
    unfold labels. rewrite elem_of_difference, labels_fold, elem_of_singleton.
    split.
    + intros [[Hin|?] ?]; [by apply elem_of_empty in Hin|done].
    + intros [? ?]. split; [by right|done].
Qed.

(** ** Dictionaries and loops of the encoder *)

Section dict_facts.
Context {V : Type} (f : nat → V).

Lemma dict_snoc l x :
  Encoder.dict_of_enumerate f (l ++ [x])
  = <[x := f (length l)]> (Encoder.dict_of_enumerate f l).
Proof.
  unfold Encoder.dict_of_enumerate, Encoder.enumerate.
  rewrite imap_app, foldl_app. simpl. by rewrite Nat.add_0_r.
Qed.

(** A key is mapped to the value of its last position in the list, and
    is absent when it is not in the list. *)
Lemma dict_lookup l x :
  match Encoder.dict_of_enumerate f l !! x with
  | Some v => ∃ i : nat, v = f i ∧ l !! i = Some x
                         ∧ ∀ j : nat, l !! j = Some x → (j ≤ i)%nat
  | None => x ∉ l
  end.
Proof.
  induction l as [|y l IH] using rev_ind.
  - unfold Encoder.dict_of_enumerate. simpl. rewrite lookup_empty.
    apply not_elem_of_nil.
  - rewrite dict_snoc. destruct (decide (y = x)) as [->|Hne].
    + rewrite lookup_insert_eq. exists (length l). split; [done|].
      split; [apply list_lookup_middle; done|].
      intros j Hj%lookup_lt_Some. rewrite length_app in Hj. simpl in Hj. lia.
    + rewrite lookup_insert_ne by done.
      destruct (Encoder.dict_of_enumerate f l !! x) as [v|].
      * destruct IH as (i & -> & Hi & Hlast). exists i. split; [done|].
        split; [by apply lookup_app_l_Some|].
        intros j Hj. apply Hlast.
        pose proof (lookup_lt_Some _ _ _ Hj) as Hlt.
        rewrite length_app in Hlt. simpl in Hlt.
        destruct (decide (j = length l)) as [->|].
        { rewrite list_lookup_middle in Hj by done. congruence. }
        rewrite lookup_app_l in Hj by lia. done.
      * rewrite elem_of_app, list_elem_of_singleton. intros [?|?]; [done|congruence].
Qed.
End dict_facts.

Lemma label_map_lookup (label_list : list string) (x : string) :
  match Encoder.label_map label_list !! x with
  | Some i => label_list !! i = Some x
              ∧ ∀ j : nat, label_list !! j = Some x → (j ≤ i)%nat
  | None => x ∉ label_list
  end.
Proof.
  pose proof (dict_lookup (λ i : nat, i) label_list x) as H.
  unfold Encoder.label_map.
  destruct (Encoder.dict_of_enumerate _ label_list !! x) as [v|]; [|done].
  by destruct H as (i & -> & ? & ?).
Qed.

Lemma type_map_lookup (t : string) :
  t ∈ ENTITY_TYPES → ∃ v, getitem Encoder.type_map t = Ok v.
Proof.
  intros Hin. unfold getitem, Encoder.type_map.
  pose proof (dict_lookup (λ i : nat, Z.of_nat i + 1) ENTITY_TYPES t) as H.
  destruct (Encoder.dict_of_enumerate _ ENTITY_TYPES !! t) as [v|];
    [by exists v|done].
Qed.

Section for_each_facts.
Context {A B : Type} (body : A → result B).

Lemma for_each_Ok l ys :
  for_each body l = Ok ys → Forall2 (λ x y, body x = Ok y) l ys.
Proof.
  revert ys. induction l as [|x l IH]; intros ys; simpl.
  - intros [= <-]. constructor.
  - destruct (body x) as [y|] eqn:Hx; [|done]. simpl.
    destruct (for_each body l) as [ys'|]; [|done]. simpl.
    intros [= <-]. constructor; [done|]. by apply IH.
Qed.

Lemma for_each_total l :
  (∀ x, x ∈ l → ∃ y, body x = Ok y) → ∃ ys, for_each body l = Ok ys.
Proof.
  induction l as [|x l IH]; intros Hall; simpl; [by eexists|].
  destruct (Hall x) as [y ->]; [left|]. simpl.
  destruct IH as [ys ->]; [intros; apply Hall; by right|].
  simpl. by eexists.
Qed.

Lemma for_each_raises l x key :
  x ∈ l → body x = KeyError key → ∃ key', for_each body l = KeyError key'.
Proof.
  intros Hin Hx. induction l as [|z l IH]; [by apply elem_of_nil in Hin|].
  simpl. apply elem_of_cons in Hin as [<-|Hin].
  - rewrite Hx. simpl. by eexists.
  - destruct (body z); simpl; [|by eexists].
    destruct (IH Hin) as [key' ->]. simpl. by eexists.
Qed.
End for_each_facts.

Section encoder_facts.
Variable tokenizer : Tokenizer.
Variable use_marker_token : bool.

Local Abbreviation tokenize := (Encoder.tokenize tokenizer).
Local Abbreviation locate := (Encoder.locate tokenizer use_marker_token).
Local Abbreviation seg := (segment tokenizer use_marker_token).

Lemma locate_tokens example st n :
  Encoder.l_tokens (locate example st n)
  = (Encoder.l_tokens st ++ gap tokenizer example st n) ++ seg example n.
Proof.
  unfold Encoder.locate, gap, segment, markers.
  cbn [Encoder.l_tokens]. destruct use_marker_token.
  - by rewrite <-!app_assoc.
  - by rewrite app_nil_r.
Qed.

Lemma locate_span example st n :
  Encoder.l_token_spans (locate example st n) n
  = Some (Z.of_nat (length (Encoder.l_tokens st ++ gap tokenizer example st n)),
          Z.of_nat (length (Encoder.l_tokens st ++ gap tokenizer example st n)
                    + length (seg example n))).
Proof.
  rewrite <-length_app, <-locate_tokens.
  unfold Encoder.locate. cbn [Encoder.l_token_spans Encoder.l_tokens].
  by rewrite fn_lookup_insert.
Qed.

Lemma locate_span_other example st n n' :
  n' ≠ n →
  Encoder.l_token_spans (locate example st n) n' = Encoder.l_token_spans st n'.
Proof.
  intros Hne. unfold Encoder.locate. cbn [Encoder.l_token_spans].
  by rewrite fn_lookup_insert_ne.
Qed.

Lemma encoder_loop_unfold example :
  ∃ n1 n2, n1 ≠ n2 ∧ Encoder.span_order example = [n1; n2]
    ∧ Encoder.run_loop tokenizer use_marker_token example
      = locate example (locate example (Encoder.loop_init tokenizer) n1) n2.
Proof.
  unfold Encoder.run_loop, Encoder.span_order.
  destruct ((span_a example).2 <? (span_b example).2).
  - by exists Encoder.name_span_a, Encoder.name_span_b.
  - by exists Encoder.name_span_b, Encoder.name_span_a.
Qed.

(** The final token sequence, piece by piece, and the token ranges that
    are recorded for the two spans. *)
Lemma final_tokens_layout example :
  ∃ n1 n2, n1 ≠ n2 ∧ Encoder.span_order example = [n1; n2] ∧
    let s1 := Encoder.getattr example n1 in
    let s2 := Encoder.getattr example n2 in
    let pre1 := [cls_token tokenizer]
                ++ tokenize (Py.str_slice (text example) 0 s1.1) in
    let pre2 := (pre1 ++ seg example n1)
                ++ tokenize (Py.str_slice (text example) s1.2 s2.1) in
    Encoder.final_tokens tokenizer use_marker_token example
    = (pre2 ++ seg example n2)
      ++ tokenize (Py.str_slice_from (text example) s2.2)
      ++ [sep_token tokenizer]
    ∧ Encoder.token_span tokenizer use_marker_token example n1
      = Ok (Z.of_nat (length pre1),
            Z.of_nat (length pre1 + length (seg example n1)))
    ∧ Encoder.token_span tokenizer use_marker_token example n2
      = Ok (Z.of_nat (length pre2),
            Z.of_nat (length pre2 + length (seg example n2))).
Proof.
  destruct (encoder_loop_unfold example) as (n1 & n2 & Hne & Ho & Hrun).
  exists n1, n2. split; [done|]. split; [done|]. cbv zeta.
  unfold Encoder.final_tokens, Encoder.token_span. rewrite Hrun.
  rewrite locate_span, locate_span_other, locate_span by done.
  rewrite !locate_tokens.
  split; [|done]. by rewrite <-!app_assoc.
Qed.

(** Each span has a token range, which holds its segment. *)
Lemma token_span_decomposition example n :
  ∃ pre post,
    Encoder.final_tokens tokenizer use_marker_token example
    = pre ++ seg example n ++ post
    ∧ Encoder.token_span tokenizer use_marker_token example n
      = Ok (Z.of_nat (length pre),
            Z.of_nat (length pre + length (seg example n))).
Proof.
  destruct (final_tokens_layout example)
    as (n1 & n2 & Hne & _ & Htok & H1 & H2). cbv zeta in *.
  assert (n = n1 ∨ n = n2) as [->| ->] by (destruct n, n1, n2; auto; done).
  - eexists _, _. split; [|exact H1]. rewrite Htok. by rewrite <-!app_assoc.
  - eexists _, _. split; [|exact H2]. rewrite Htok. by rewrite <-!app_assoc.
Qed.
End encoder_facts.

(** ** Position ids *)

Lemma range_lookup (a b : Z) (j : nat) :
  Z.of_nat j < b - a → Py.range a b !! j = Some (a + Z.of_nat j).
Proof.
  intros Hj. unfold Py.range. rewrite list_lookup_fmap.
  rewrite lookup_seq_lt by lia. done.
Qed.

Lemma range_length (a b : Z) : length (Py.range a b) = Z.to_nat (b - a).
Proof. unfold Py.range. by rewrite length_fmap, length_seq. Qed.

(** The list built for one entity: its length, and its entry at every
    position. *)
Lemma position_ids_lookup (M s e : Z) :
  0 ≤ M → s ≤ e →
  Z.of_nat (length (Encoder.position_ids M (s, e))) = M
  ∧ ∀ j : nat, Z.of_nat j < M →
      Encoder.position_ids M (s, e) !! j
      = Some (if Z.of_nat j <? e - s then s + Z.of_nat j else -1).
Proof.
  intros HM Hse. unfold Encoder.position_ids. cbv zeta. cbn [fst snd].
  rewrite slice_to_nonneg by done. unfold Py.repeat. split.
  - rewrite length_app, length_take, range_length, length_replicate. lia.
  - intros j Hj. destruct (Z.ltb_spec (Z.of_nat j) (e - s)).
    + rewrite lookup_app_l by (rewrite length_take, range_length; lia).
      rewrite lookup_take_lt by lia. by apply range_lookup.
    + rewrite lookup_app_r by (rewrite length_take, range_length; lia).
      apply lookup_replicate_2. rewrite length_take, range_length. lia.
Qed.

(** ** One example through the encoder *)

Section convert_facts.
Variable tokenizer : Tokenizer.
Variable max_mention_length : Z.
Variable use_entity_type_token : bool.
Variable use_marker_token : bool.
Variable label_list : list string.

Local Abbreviation convert_example :=
  (Encoder.convert_example tokenizer max_mention_length use_entity_type_token
     use_marker_token label_list).
Local Abbreviation token_span := (Encoder.token_span tokenizer use_marker_token).

(** The token ranges of both spans exist, so that building the position
    ids cannot fail; what is left are the two kinds of lookups. *)
Lemma convert_example_unfold example :
  ∃ sa ea sb eb,
    token_span example Encoder.name_span_a = Ok (sa, ea)
    ∧ token_span example Encoder.name_span_b = Ok (sb, eb)
    ∧ (0 ≤ sa ∧ sa ≤ ea) ∧ (0 ≤ sb ∧ sb ≤ eb)
    ∧ convert_example example
      = (entity_ids ←
           (if use_entity_type_token
            then a ← getitem Encoder.type_map (type_a example);
                 b ← getitem Encoder.type_map (type_b example);
                 Ok [a; b]
            else Ok [1; 1]);
         label ← getitem (Encoder.label_map label_list) (label example);
         let tokens := Encoder.final_tokens tokenizer use_marker_token example in
         Ok {| word_ids := convert_tokens_to_ids tokenizer tokens;
               word_segment_ids := Py.repeat 0 (Z.of_nat (length tokens));
               word_attention_mask := Py.repeat 1 (Z.of_nat (length tokens));
               entity_ids := entity_ids;
               entity_position_ids :=
                 [Encoder.position_ids max_mention_length (sa, ea);
                  Encoder.position_ids max_mention_length (sb, eb)];
               entity_segment_ids := [0; 0];
               entity_attention_mask := [1; 1];
               f_label := label |}).
Proof.
  destruct (token_span_decomposition tokenizer use_marker_token example
              Encoder.name_span_a) as (pa & qa & _ & Ha).
  destruct (token_span_decomposition tokenizer use_marker_token example
              Encoder.name_span_b) as (pb & qb & _ & Hb).
  eexists _, _, _, _. split; [exact Ha|]. split; [exact Hb|].
  split; [lia|]. split; [lia|].
  unfold Encoder.convert_example. cbn [for_each]. rewrite Ha, Hb. reflexivity.
Qed.

Lemma convert_example_Ok example f :
  convert_example example = Ok f →
  ∃ sa ea sb eb,
    token_span example Encoder.name_span_a = Ok (sa, ea)
    ∧ token_span example Encoder.name_span_b = Ok (sb, eb)
    ∧ (0 ≤ sa ∧ sa ≤ ea) ∧ (0 ≤ sb ∧ sb ≤ eb)
    ∧ entity_position_ids f
      = [Encoder.position_ids max_mention_length (sa, ea);
         Encoder.position_ids max_mention_length (sb, eb)]
    ∧ getitem (Encoder.label_map label_list) (label example) = Ok (f_label f)
    ∧ word_ids f
      = convert_tokens_to_ids tokenizer
          (Encoder.final_tokens tokenizer use_marker_token example).
Proof.
  destruct (convert_example_unfold example)
    as (sa & ea & sb & eb & Ha & Hb & Hsa & Hsb & ->).
  intros Hf. exists sa, ea, sb, eb. do 4 (split; [done|]).
  destruct (if use_entity_type_token then _ else _) as [ids|]; [|done].
  destruct (getitem _ (label example)) as [l|]; [|done].
  simpl in Hf. by injection Hf as <-.
Qed.

Lemma getitem_label_map (x : string) :
  match getitem (Encoder.label_map label_list) x with
  | Ok i => label_list !! i = Some x
            ∧ ∀ j : nat, label_list !! j = Some x → (j ≤ i)%nat
  | KeyError _ => x ∉ label_list
  end.
Proof.
  unfold getitem. pose proof (label_map_lookup label_list x) as H.
  by destruct (Encoder.label_map label_list !! x).
Qed.

Lemma convert_example_raises example :
  label example ∉ label_list → ∃ key, convert_example example = KeyError key.
Proof.
  intros Hnot.
  destruct (convert_example_unfold example) as (? & ? & ? & ? & _ & _ & _ & _ & ->).
  destruct (if use_entity_type_token then _ else _) as [ids|key];
    [|by exists key].
  pose proof (getitem_label_map (label example)) as H.
  destruct (getitem _ (label example)) as [i|key]; [|by exists key].
  destruct H as [Hi _]. destruct Hnot. apply list_elem_of_lookup. eauto.
Qed.

Lemma convert_example_total example :
  label example ∈ label_list →
  (use_entity_type_token = true →
   type_a example ∈ ENTITY_TYPES ∧ type_b example ∈ ENTITY_TYPES) →
  ∃ f, convert_example example = Ok f.
Proof.
  intros Hin Hty.
  destruct (convert_example_unfold example) as (? & ? & ? & ? & _ & _ & _ & _ & ->).
  pose proof (getitem_label_map (label example)) as H.
  destruct (getitem _ (label example)) as [i|key]; [|done].
  destruct use_entity_type_token.
  - destruct Hty as [Ha Hb]; [done|].
    destruct (type_map_lookup _ Ha) as [a ->].
    destruct (type_map_lookup _ Hb) as [b ->]. by eexists.
  - by eexists.
Qed.
End convert_facts.

Lemma position_ids_elem (M s e k : Z) :
  0 ≤ M → 0 ≤ s → s ≤ e → 0 ≤ k →
  k ∈ Encoder.position_ids M (s, e) ↔ s ≤ k ∧ k < e ∧ k < s + M.
Proof.
  intros HM Hs Hse Hk. destruct (position_ids_lookup M s e HM Hse) as [Hlen Hget].
  rewrite list_elem_of_lookup. split.
  - intros [j Hj]. pose proof (lookup_lt_Some _ _ _ Hj) as Hlt.
    rewrite Hget in Hj by lia.
    destruct (Z.ltb_spec (Z.of_nat j) (e - s)); simplify_eq; lia.
  - intros (? & ? & ?). exists (Z.to_nat (k - s)). rewrite Hget by lia.
    destruct (Z.ltb_spec (Z.of_nat (Z.to_nat (k - s))) (e - s)); [|lia].
    f_equal. lia.
Qed.

(** ** The claims about the encoder *)

(** C4 (as stated, refuted): with equal start offsets the encoder
    processes span_b, not span_a, first. *)
Lemma same_start_processes_span_b_first :
  (span_a same_start_example).1 = (span_b same_start_example).1
  ∧ Encoder.span_order same_start_example
    ≠ [Encoder.name_span_a; Encoder.name_span_b]
  ∧ Encoder.final_tokens words_tokenizer true same_start_example
    = ["[CLS]"; "[TAIL]"; "New"; "[TAIL]"; "[HEAD]"; "New"; "York"; "[HEAD]";
       "is"; "big"; "[SEP]"].
Proof. split; [done|]. split; [done|]. vm_compute. reflexivity. Qed.

(** C4 (amended): the encoder processes span_a first exactly when the end
    offset of span_a is strictly smaller than the end offset of span_b, and
    span_b first otherwise, also when the end offsets are equal; the final
    token sequence is laid out in that order. For two spans that do not
    overlap and have end > start this is the order of increasing start
    offset. *)
Theorem spans_processed_by_end (tokenizer : Tokenizer) (use_marker_token : bool)
    (example : InputExample) :
  let a_first := (span_a example).2 <? (span_b example).2 in
  let n1 := if a_first then Encoder.name_span_a else Encoder.name_span_b in
  let n2 := if a_first then Encoder.name_span_b else Encoder.name_span_a in
  let s1 := Encoder.getattr example n1 in
  let s2 := Encoder.getattr example n2 in
  Encoder.span_order example = [n1; n2]
  ∧ Encoder.final_tokens tokenizer use_marker_token example
    = [cls_token tokenizer]
      ++ Encoder.tokenize tokenizer (Py.str_slice (text example) 0 s1.1)
      ++ segment tokenizer use_marker_token example n1
      ++ Encoder.tokenize tokenizer (Py.str_slice (text example) s1.2 s2.1)
      ++ segment tokenizer use_marker_token example n2
      ++ Encoder.tokenize tokenizer (Py.str_slice_from (text example) s2.2)
      ++ [sep_token tokenizer]
  ∧ (disjoint_spans (span_a example) (span_b example) →
     (span_a example).1 < (span_a example).2 →
     (span_b example).1 < (span_b example).2 →
     a_first = ((span_a example).1 <? (span_b example).1)).
Proof.
  cbv zeta.
  destruct (final_tokens_layout tokenizer use_marker_token example)
    as (n1 & n2 & _ & Ho & Htok & _). cbv zeta in Htok.
  unfold Encoder.span_order in *.
  split; [by destruct (_ <? _)|]. split.
  - rewrite Htok. destruct (_ <? _); simplify_eq; by rewrite <-!app_assoc.
  - unfold disjoint_spans. intros Hd Ha Hb.
    destruct (Z.ltb_spec (span_a example).2 (span_b example).2),
      (Z.ltb_spec (span_a example).1 (span_b example).1); (done || lia).
Qed.

Lemma spans_processed_by_end_witness :
  ((span_a john_example).2 <? (span_b john_example).2)
  = ((span_a john_example).1 <? (span_b john_example).1).
Proof.
  refine (proj2 (proj2 (spans_processed_by_end words_tokenizer true john_example))
            _ _ _).
  - left. vm_compute. discriminate.
  - vm_compute. reflexivity.
  - vm_compute. reflexivity.
Defined.

(** C6: for every Features record the encoder produces, with a
    non-negative max_mention_length, and for each of the two entities,
    entity_position_ids of that entity has exactly max_mention_length
    entries: entry j is start + j while j is inside the entity's token range
    (the consecutive token indices of the range, cut at max_mention_length
    when the range is longer) and -1 after it. *)
Theorem entity_position_ids_shape (tokenizer : Tokenizer) (max_mention_length : Z)
    (use_entity_type_token use_marker_token : bool)
    (examples : list InputExample) (label_list : list string)
    (features : list InputFeatures) (f : InputFeatures) :
  0 ≤ max_mention_length →
  Encoder.convert_examples_to_features tokenizer max_mention_length
    use_entity_type_token use_marker_token examples label_list = Ok features →
  f ∈ features →
  ∃ example, example ∈ examples
    ∧ Encoder.convert_example tokenizer max_mention_length use_entity_type_token
        use_marker_token label_list example = Ok f
    ∧ length (entity_position_ids f) = 2%nat
    ∧ ∀ n, ∃ s e p,
        Encoder.token_span tokenizer use_marker_token example n = Ok (s, e)
        ∧ entity_position_ids f !! entity_index n = Some p
        ∧ Z.of_nat (length p) = max_mention_length
        ∧ ∀ j : nat, Z.of_nat j < max_mention_length →
            p !! j = Some (if Z.of_nat j <? e - s then s + Z.of_nat j else -1).
Proof.
  intros HM Hconv Hf. apply for_each_Ok in Hconv.
  apply list_elem_of_lookup in Hf as [i Hi].
  destruct (Forall2_lookup_r _ _ _ _ _ Hconv Hi) as (example & Hex & Hok).
  exists example. split; [by eapply list_elem_of_lookup_2|]. split; [done|].
  destruct (convert_example_Ok _ _ _ _ _ _ _ Hok)
    as (sa & ea & sb & eb & Ha & Hb & [_ Hsa] & [_ Hsb] & -> & _).
  split; [done|]. intros [].
  - exists sa, ea. eexists. split; [done|]. split; [done|].
    by apply position_ids_lookup.
  - exists sb, eb. eexists. split; [done|]. split; [done|].
    by apply position_ids_lookup.
Qed.

Lemma entity_position_ids_shape_witness :
  ∃ example, example ∈ [john_example]
    ∧ Encoder.convert_example words_tokenizer 2 true true john_vocabulary example
      = Ok (john_features [[1; 2]; [6; 7]])
    ∧ length (entity_position_ids (john_features [[1; 2]; [6; 7]])) = 2%nat
    ∧ ∀ n, ∃ s e p,
        Encoder.token_span words_tokenizer true example n = Ok (s, e)
        ∧ entity_position_ids (john_features [[1; 2]; [6; 7]]) !! entity_index n
          = Some p
        ∧ Z.of_nat (length p) = 2
        ∧ ∀ j : nat, Z.of_nat j < 2 →
            p !! j = Some (if Z.of_nat j <? e - s then s + Z.of_nat j else -1).
Proof.
  apply (entity_position_ids_shape words_tokenizer 2 true true [john_example]
           john_vocabulary [john_features [[1; 2]; [6; 7]]]).
  - lia.
  - vm_compute. reflexivity.
  - apply list_elem_of_here.
Defined.

(** C7 (as stated, refuted): with every label in the vocabulary the
    encoder still raises, and produces no Features, when entity types are
    encoded and an entity type is not one of ENTITY_TYPES. *)
Lemma unknown_entity_type_raises :
  (∀ example, example ∈ [untyped_example] → label example ∈ john_vocabulary)
  ∧ Encoder.convert_examples_to_features words_tokenizer 4 true true
      [untyped_example] john_vocabulary = KeyError "HUMAN"
  ∧ ¬ ∃ features,
        Encoder.convert_examples_to_features words_tokenizer 4 true true
          [untyped_example] john_vocabulary = Ok features.
Proof.
  assert (Encoder.convert_examples_to_features words_tokenizer 4 true true
            [untyped_example] john_vocabulary = KeyError "HUMAN") as Hraise
    by (vm_compute; reflexivity).
  split; [|split; [done|]].
  - intros example ->%list_elem_of_singleton. compute_done.
  - intros [features Hok]. rewrite Hraise in Hok. discriminate Hok.
Qed.

(** C7 (amended): [convert_examples_to_features] raises an error when the
    label of some example is absent from the label vocabulary. When every
    label is present and, if entity types are encoded, every entity type is
    one of ENTITY_TYPES, it produces exactly one Features record per
    example, in input order, whose label is the index of the example's
    label in the vocabulary (the last such index, should the vocabulary
    repeat a label). *)
Theorem convert_examples_to_features_labels (tokenizer : Tokenizer)
    (max_mention_length : Z) (use_entity_type_token use_marker_token : bool)
    (examples : list InputExample) (label_list : list string) :
  ((∃ example, example ∈ examples ∧ label example ∉ label_list) →
   ∃ key, Encoder.convert_examples_to_features tokenizer max_mention_length
            use_entity_type_token use_marker_token examples label_list
          = KeyError key)
  ∧ ((∀ example, example ∈ examples →
        label example ∈ label_list
        ∧ (use_entity_type_token = true →
           type_a example ∈ ENTITY_TYPES ∧ type_b example ∈ ENTITY_TYPES)) →
     ∃ features,
       Encoder.convert_examples_to_features tokenizer max_mention_length
         use_entity_type_token use_marker_token examples label_list
       = Ok features
       ∧ Forall2
           (λ example f,
              Encoder.convert_example tokenizer max_mention_length
                use_entity_type_token use_marker_token label_list example = Ok f
              ∧ label_list !! f_label f = Some (label example)
              ∧ ∀ j : nat, label_list !! j = Some (label example) →
                           (j ≤ f_label f)%nat)
           examples features).
Proof.
  unfold Encoder.convert_examples_to_features. split.
  - intros (example & Hin & Hnot).
    destruct (convert_example_raises tokenizer max_mention_length
                use_entity_type_token use_marker_token label_list example Hnot)
      as [key Hkey].
    by eapply for_each_raises.
  - intros Hall.
    destruct (for_each_total
                (Encoder.convert_example tokenizer max_mention_length
                   use_entity_type_token use_marker_token label_list) examples)
      as [features Hok].
    { intros example Hin. destruct (Hall example Hin) as [Hl Hty].
      by apply convert_example_total. }
    exists features. split; [done|].
    apply for_each_Ok in Hok. eapply Forall2_impl; [exact Hok|].
    intros example f Hf. split; [done|]. cbv beta in Hf.
    destruct (convert_example_Ok _ _ _ _ _ _ _ Hf)
      as (_ & _ & _ & _ & _ & _ & _ & _ & _ & Hlabel & _).
    pose proof (getitem_label_map label_list (label example)) as H.
    by rewrite Hlabel in H.
Qed.

Lemma convert_examples_to_features_labels_witness :
  (∃ key, Encoder.convert_examples_to_features words_tokenizer 4 true true
            [john_example] ["no_relation"] = KeyError key)
  ∧ ∃ features,
      Encoder.convert_examples_to_features words_tokenizer 4 true true
        [john_example] john_vocabulary = Ok features
      ∧ Forall2
          (λ example f,
             Encoder.convert_example words_tokenizer 4 true true john_vocabulary
               example = Ok f
             ∧ john_vocabulary !! f_label f = Some (label example)
             ∧ ∀ j : nat, john_vocabulary !! j = Some (label example) →
                          (j ≤ f_label f)%nat)
          [john_example] features.
Proof.
  split.
  - apply (proj1 (convert_examples_to_features_labels words_tokenizer 4 true true
                    [john_example] ["no_relation"])).
    exists john_example. split; [apply list_elem_of_here|compute_done].
  - apply (proj2 (convert_examples_to_features_labels words_tokenizer 4 true true
                    [john_example] john_vocabulary)).
    intros example ->%list_elem_of_singleton. split; [compute_done|].
    intros _. split; compute_done.
Defined.

(** C9: with use_marker_token set, for every example the final token
    sequence has a HEAD marker immediately before the first and immediately
    after the last subword token of the text of span_a, and a TAIL marker
    immediately before the first and immediately after the last subword
    token of the text of span_b. *)
Theorem markers_surround_entities (tokenizer : Tokenizer) (example : InputExample) :
  (∃ pre post,
     Encoder.final_tokens tokenizer true example
     = pre ++ [HEAD_TOKEN]
       ++ Encoder.tokenize tokenizer
            (Py.str_slice (text example) (span_a example).1 (span_a example).2)
       ++ [HEAD_TOKEN] ++ post)
  ∧ (∃ pre post,
       Encoder.final_tokens tokenizer true example
       = pre ++ [TAIL_TOKEN]
         ++ Encoder.tokenize tokenizer
              (Py.str_slice (text example) (span_b example).1 (span_b example).2)
         ++ [TAIL_TOKEN] ++ post).
Proof.
  split.
  - destruct (token_span_decomposition tokenizer true example Encoder.name_span_a)
      as (pre & post & -> & _).
    exists pre, post. unfold segment, markers. by rewrite <-!app_assoc.
  - destruct (token_span_decomposition tokenizer true example Encoder.name_span_b)
      as (pre & post & -> & _).
    exists pre, post. unfold segment, markers. by rewrite <-!app_assoc.
Qed.

Lemma segment_lookup (pre sub post : list string) (m : string) :
  let tokens := pre ++ ([m] ++ sub ++ [m]) ++ post in
  tokens !! length pre = Some m
  ∧ (∀ j : nat, (j < length sub)%nat →
                tokens !! (length pre + 1 + j)%nat = sub !! j)
  ∧ tokens !! (length pre + 1 + length sub)%nat = Some m.
Proof.
  cbv zeta. split; [by apply list_lookup_middle|]. split.
  - intros j Hj. rewrite lookup_app_r by lia.
    replace (length pre + 1 + j - length pre)%nat with (S j) by lia.
    cbn [app lookup list_lookup]. rewrite <-app_assoc. by apply lookup_app_l.
  - rewrite lookup_app_r by lia.
    replace (length pre + 1 + length sub - length pre)%nat
      with (S (length sub)) by lia.
    cbn [app lookup list_lookup]. rewrite <-app_assoc. by apply list_lookup_middle.
Qed.

(** C10 (as stated, refuted): with two position slots the position ids of
    the first entity of John lives in Paris are 1 and 2; the index 3 of its
    closing marker is in the recorded token range but not among them. *)
Lemma closing_marker_index_truncated :
  Encoder.convert_example words_tokenizer 2 true true john_vocabulary john_example
  = Ok (john_features [[1; 2]; [6; 7]])
  ∧ Encoder.token_span words_tokenizer true john_example Encoder.name_span_a
    = Ok (1, 4)
  ∧ Encoder.final_tokens words_tokenizer true john_example !! 3%nat
    = Some HEAD_TOKEN
  ∧ ∀ p, entity_position_ids (john_features [[1; 2]; [6; 7]]) !! 0%nat = Some p →
         3 ∉ p.
Proof.
  split; [vm_compute; reflexivity|]. split; [vm_compute; reflexivity|].
  split; [vm_compute; reflexivity|]. intros p [= <-]. compute_done.
Qed.

(** C10 (amended): with use_marker_token set, the recorded token range of
    each entity starts at the index of its opening marker and ends one past
    the index of its closing marker, with the entity's subword tokens
    between the two. Its entity_position_ids are that range cut to
    max_mention_length: they include the index of the opening marker exactly
    when max_mention_length is at least 1, and the index of the closing
    marker exactly when the range is not longer than max_mention_length. *)
Theorem token_range_with_markers (tokenizer : Tokenizer) (max_mention_length : Z)
    (use_entity_type_token : bool) (label_list : list string)
    (example : InputExample) (f : InputFeatures) (n : Encoder.span_name) :
  0 ≤ max_mention_length →
  Encoder.convert_example tokenizer max_mention_length use_entity_type_token true
    label_list example = Ok f →
  let sub := Encoder.tokenize tokenizer
               (Py.str_slice (text example) (Encoder.getattr example n).1
                             (Encoder.getattr example n).2) in
  let tokens := Encoder.final_tokens tokenizer true example in
  ∃ (s e : nat) (p : list Z),
    Encoder.token_span tokenizer true example n = Ok (Z.of_nat s, Z.of_nat e)
    ∧ tokens !! s = Some (Encoder.marker n)
    ∧ (∀ j : nat, (j < length sub)%nat → tokens !! (s + 1 + j)%nat = sub !! j)
    ∧ tokens !! (s + 1 + length sub)%nat = Some (Encoder.marker n)
    ∧ e = (s + 1 + length sub + 1)%nat
    ∧ entity_position_ids f !! entity_index n = Some p
    ∧ (Z.of_nat s ∈ p ↔ 1 ≤ max_mention_length)
    ∧ (Z.of_nat e - 1 ∈ p ↔ Z.of_nat e - Z.of_nat s ≤ max_mention_length).
Proof.
  intros HM Hf. cbv zeta.
  destruct (token_span_decomposition tokenizer true example n)
    as (pre & post & Htok & Hspan).
  unfold segment, markers in Htok, Hspan.
  set (sub := Encoder.tokenize tokenizer _) in *.
  assert (length ([Encoder.marker n] ++ sub ++ [Encoder.marker n])
          = (1 + length sub + 1)%nat) as Hlen
    by (rewrite !length_app; simpl; lia).
  rewrite Hlen in Hspan.
  destruct (segment_lookup pre sub post (Encoder.marker n)) as (H1 & H2 & H3).
  cbv zeta in H1, H2, H3. rewrite <-Htok in H1, H2, H3.
  destruct (convert_example_Ok _ _ _ _ _ _ _ Hf)
    as (sa & ea & sb & eb & Ha & Hb & _ & _ & Hp & _).
  exists (length pre), (length pre + (1 + length sub + 1))%nat.
  exists (Encoder.position_ids max_mention_length
            (Z.of_nat (length pre),
             Z.of_nat (length pre + (1 + length sub + 1)))).
  split; [done|]. do 3 (split; [done|]). split; [lia|]. split.
  - rewrite Hp.
    destruct n; [rewrite Ha in Hspan|rewrite Hb in Hspan];
      injection Hspan as -> ->; done.
  - rewrite !position_ids_elem by lia. lia.
Qed.

Lemma token_range_with_markers_witness :
  ∃ (s e : nat) (p : list Z),
    Encoder.token_span words_tokenizer true john_example Encoder.name_span_b
    = Ok (Z.of_nat s, Z.of_nat e)
    ∧ Encoder.final_tokens words_tokenizer true john_example !! s
      = Some (Encoder.marker Encoder.name_span_b)
    ∧ (∀ j : nat,
         (j < length (Encoder.tokenize words_tokenizer
                        (Py.str_slice (text john_example)
                           (Encoder.getattr john_example Encoder.name_span_b).1
                           (Encoder.getattr john_example Encoder.name_span_b).2)))%nat →
         Encoder.final_tokens words_tokenizer true john_example !! (s + 1 + j)%nat
         = Encoder.tokenize words_tokenizer
             (Py.str_slice (text john_example)
                (Encoder.getattr john_example Encoder.name_span_b).1
                (Encoder.getattr john_example Encoder.name_span_b).2) !! j)
    ∧ Encoder.final_tokens words_tokenizer true john_example
        !! (s + 1 + length (Encoder.tokenize words_tokenizer
                              (Py.str_slice (text john_example)
                                 (Encoder.getattr john_example Encoder.name_span_b).1
                                 (Encoder.getattr john_example Encoder.name_span_b).2)))%nat
      = Some (Encoder.marker Encoder.name_span_b)
    ∧ e = (s + 1 + length (Encoder.tokenize words_tokenizer
                             (Py.str_slice (text john_example)
                                (Encoder.getattr john_example Encoder.name_span_b).1
                                (Encoder.getattr john_example Encoder.name_span_b).2))
           + 1)%nat
    ∧ entity_position_ids (john_features [[1; 2; 3; -1]; [6; 7; 8; -1]])
        !! entity_index Encoder.name_span_b = Some p
    ∧ (Z.of_nat s ∈ p ↔ 1 ≤ 4)
    ∧ (Z.of_nat e - 1 ∈ p ↔ Z.of_nat e - Z.of_nat s ≤ 4).
Proof.
  apply (token_range_with_markers words_tokenizer 4 true john_vocabulary
           john_example (john_features [[1; 2; 3; -1]; [6; 7; 8; -1]])
           Encoder.name_span_b).
  - lia.
  - vm_compute. reflexivity.
Defined.

(** * Further properties of the code *)

(** ** The examples of a split *)

Lemma str_of_nat_inj (i j : nat) : Py.str_of_nat i = Py.str_of_nat j → i = j.
Proof.
  unfold Py.str_of_nat. intros H.
  assert (Some (Nat.to_uint i) = Some (Nat.to_uint j)) as [= Hu]
    by (by rewrite <-!NilEmpty.usu, H).
  apply (f_equal Nat.of_uint) in Hu. by rewrite !Unsigned.of_to in Hu.
Qed.


(** X2: the ids of the examples of a split are pairwise different. *)
Theorem create_examples_ids_distinct (set_type : string) (data : list Item) :
  NoDup (id <$> _create_examples set_type data).
Proof.
  unfold _create_examples. rewrite fmap_imap. apply NoDup_alt.
  intros i j x. rewrite !list_lookup_imap.
  destruct (data !! i) as [a|]; [|done]. destruct (data !! j) as [b|]; [|done].
  cbn. intros [= <-] [= H].
  apply (inj (String.app set_type)), (inj (String.app "-")) in H.
  symmetry. by apply str_of_nat_inj.
Qed.

(** X3: an id of the training split is never an id of the dev or of the
    test split, and an id of the dev split is never one of the test
    split. *)
Theorem split_ids_never_collide (train dev test : list Item) :
  Forall (λ a, Forall (λ b, id a ≠ id b) (get_dev_examples dev)
               ∧ Forall (λ c, id a ≠ id c) (get_test_examples test))
         (get_train_examples train)
  ∧ Forall (λ b, Forall (λ c, id b ≠ id c) (get_test_examples test))
           (get_dev_examples dev).
Proof.
  unfold get_train_examples, get_dev_examples, get_test_examples, _create_examples.
  repeat (split || (apply Forall_forall; intros ? (? & ? & -> & _)%elem_of_lookup_imap));
    cbn [id]; intros H; vm_compute in H; discriminate H.
Qed.

(** ** The rebuilt text *)

Lemma rstrip_list_idemp (l : list ascii) :
  Py.rstrip_list (Py.rstrip_list l) = Py.rstrip_list l.
Proof.
  induction l as [|c l IH]; [done|]. cbn [Py.rstrip_list].
  destruct (Py.rstrip_list l) as [|d r] eqn:Hr.
  - destruct (Py.isspace c) eqn:Hc; [done|]. cbn. by rewrite Hc.
  - cbn [Py.rstrip_list] in *. by rewrite IH.
Qed.

Lemma rstrip_list_last (l P : list ascii) (c : ascii) :
  Py.rstrip_list l = P ++ [c] → Py.isspace c = false.
Proof.
  intros H. pose proof (rstrip_list_idemp l) as Hid. rewrite H in Hid.
  rewrite rstrip_list_app in Hid. cbn in Hid.
  destruct (Py.isspace c); [|done].
  pose proof (rstrip_list_length P) as Hlen. rewrite Hid, length_app in Hlen.
  simpl in Hlen. lia.
Qed.

(** X6: the text of an example never ends in white space: stripping it
    again changes nothing, its last character, if any, is not white space;
    and it is never longer than the text before stripping. *)
Theorem text_has_no_trailing_space (set_type : string) (i : nat) (item : Item) :
  let example := create_example set_type i item in
  Py.rstrip (text example) = text example
  ∧ Py.len (text example) ≤ Py.len (raw_text item)
  ∧ ∀ P c, text example = P +:+ String c "" → Py.isspace c = false.
Proof.
  cbv zeta. change (text (create_example set_type i item))
    with (Py.rstrip (raw_text item)).
  unfold Py.rstrip. rewrite list_ascii_of_string_of_list_ascii. split; [|split].
  - by rewrite rstrip_list_idemp.
  - rewrite !len_list, list_ascii_of_string_of_list_ascii.
    pose proof (rstrip_list_length (list_ascii_of_string (raw_text item))). lia.
  - intros P c H. apply (f_equal list_ascii_of_string) in H.
    rewrite list_ascii_of_string_of_list_ascii, list_ascii_of_string_app in H.
    by eapply rstrip_list_last.
Qed.

Lemma text_has_no_trailing_space_witness : Py.isspace "s" = false.
Proof.
  refine (proj2 (proj2 (text_has_no_trailing_space "train" 0 john_item))
            "John lives in Pari" "s"%char _).
  vm_compute. reflexivity.
Defined.

(** X7: the length of the character span of an entity is the length of the
    space-join of its tokens plus one. A token span that starts at or
    beyond the end of the token list is accepted without an error: the
    entity then has no tokens, and its character span has length one. *)
Theorem span_length (set_type : string) (i : nat) (item : Item) (e : entity) :
  let span := span_of (create_example set_type i item) e in
  span.2 - span.1 = Py.len (entity_text item e) + 1
  ∧ (Z.of_nat (length (token item)) ≤ (token_spans item e).1 →
     entity_tokens item e = [] ∧ span.2 = span.1 + 1).
Proof.
  cbv zeta.
  assert (span_of (create_example set_type i item) e
          = DatasetProcessor.l_char_spans (DatasetProcessor.run_loop unset item) e)
    as -> by (by destruct e).
  destruct (char_span_decomposition item e) as (P & R & _ & ->). cbn [fst snd].
  rewrite len_app, len_space. split; [lia|]. intros Hfar.
  unfold entity_text, entity_tokens. rewrite slice_beyond by done.
  split; [done|]. change (Py.len (Py.join " " [])) with 0. lia.
Qed.

Lemma span_length_witness :
  entity_tokens beyond_item subj = []
  ∧ (span_of (create_example "train" 0 beyond_item) subj).2
    = (span_of (create_example "train" 0 beyond_item) subj).1 + 1.
Proof.
  refine (proj2 (span_length "train" 0 beyond_item subj) _).
  vm_compute. discriminate.
Defined.

(** X8: on an example made by the builder the encoder processes the two
    spans in the order in which the builder placed the two entities: its
    comparison of the end offsets agrees with the builder's comparison of
    the start tokens, ties included. *)
Theorem encoder_order_agrees_with_builder (set_type : string) (i : nat)
    (item : Item) :
  Encoder.span_order (create_example set_type i item)
  = span_name_of <$> entity_order item.
Proof.
  destruct (char_spans_ordered item) as (e1 & e2 & Hne & -> & Hs).
  cbv zeta in Hs. unfold Encoder.span_order. cbn [create_example span_a span_b].
  destruct e1, e2; try done.
  - destruct (Z.ltb_spec
                (DatasetProcessor.l_char_spans (DatasetProcessor.run_loop unset item) subj).2
                (DatasetProcessor.l_char_spans (DatasetProcessor.run_loop unset item) obj).2);
      [done|lia].
  - destruct (Z.ltb_spec
                (DatasetProcessor.l_char_spans (DatasetProcessor.run_loop unset item) subj).2
                (DatasetProcessor.l_char_spans (DatasetProcessor.run_loop unset item) obj).2);
      [lia|done].
Qed.

(** ** The text against the tokens of the record *)

Lemma join_cons (sep x : string) (l : list string) :
  l ≠ [] → Py.join sep (x :: l) = x +:+ (sep +:+ Py.join sep l).
Proof. by destruct l. Qed.

Lemma join_app (sep : string) (l1 l2 : list string) :
  l1 ≠ [] → l2 ≠ [] →
  Py.join sep (l1 ++ l2) = Py.join sep l1 +:+ (sep +:+ Py.join sep l2).
Proof.
  intros H1 H2. induction l1 as [|x l1 IH]; [done|]. clear H1.
  destruct l1 as [|y l1].
  - cbn [app]. by rewrite join_cons.
  - change ((x :: y :: l1) ++ l2) with (x :: (y :: l1) ++ l2).
    rewrite join_cons by done. rewrite IH by done.
    rewrite (join_cons sep x (y :: l1)) by done. by rewrite !app_assoc_str.
Qed.

Lemma len_zero (s : string) : Py.len s = 0 → s = "".
Proof. by destruct s. Qed.

Lemma join_nonempty (l : list string) :
  l ≠ [] → (∀ t, t ∈ l → t ≠ "") → Py.join " " l ≠ "".
Proof.
  destruct l as [|x l]; [done|]. intros _ Hall.
  assert (x ≠ "") as Hx by (apply Hall; left).
  intros Hj%(f_equal Py.len). destruct l as [|y l].
  - cbn [Py.join concat] in Hj. apply Hx, len_zero. exact Hj.
  - rewrite join_cons, !len_app in Hj by done.
    pose proof (len_nonneg x). pose proof (len_nonneg (Py.join " " (y :: l))).
    rewrite len_space in Hj. change (Py.len "") with 0 in Hj. lia.
Qed.

Section split_facts.
Context {A : Type}.
Implicit Types l P S R : list A.

Lemma slice_of_split l P S R i j :
  l = P ++ S ++ R →
  i = Z.of_nat (length P) → j = Z.of_nat (length P + length S) →
  Py.slice l i j = S.
Proof.
  intros -> -> ->. rewrite Nat2Z.inj_add. apply slice_middle.
Qed.

Lemma slice_from_of_split l P R i :
  l = P ++ R → i = Z.of_nat (length P) → Py.slice_from l i = R.
Proof.
  intros -> ->. unfold Py.slice_from. rewrite norm_index_nonneg by lia.
  rewrite length_app.
  replace (Z.to_nat (Z.min _ _)) with (length P) by lia.
  apply drop_app_length.
Qed.

Lemma slice_to_of_split l P R j :
  l = P ++ R → j = Z.of_nat (length P) → Py.slice_to l j = P.
Proof.
  intros -> ->. rewrite slice_to_nonneg by lia. rewrite Nat2Z.id.
  apply take_app_length.
Qed.

Lemma take_drop_piece l (n m : nat) :
  (n ≤ m)%nat → take (m - n) (drop n l) ++ drop m l = drop n l.
Proof.
  intros Hnm. rewrite <-(take_drop (m - n) (drop n l)) at 2.
  rewrite drop_drop. by replace (n + (m - n))%nat with m by lia.
Qed.

(** A list cut at four increasing positions. *)
Lemma split_at_four l (a b c d : nat) :
  (a ≤ b)%nat → (b ≤ c)%nat → (c ≤ d)%nat → (d ≤ length l)%nat →
  ∃ P1 S1 P2 S2 R,
    l = P1 ++ S1 ++ P2 ++ S2 ++ R
    ∧ length P1 = a ∧ length S1 = (b - a)%nat ∧ length P2 = (c - b)%nat
    ∧ length S2 = (d - c)%nat.
Proof.
  intros Hab Hbc Hcd Hd.
  exists (take a l), (take (b - a) (drop a l)), (take (c - b) (drop b l)),
    (take (d - c) (drop c l)), (drop d l).
  split.
  - rewrite !take_drop_piece by done. by rewrite take_drop.
  - rewrite !length_take, !length_drop. lia.
Qed.
End split_facts.

Lemma rstrip_trailing_space (s : string) : Py.rstrip (s +:+ " ") = Py.rstrip s.
Proof.
  unfold Py.rstrip. by rewrite list_ascii_of_string_app, rstrip_list_app.
Qed.

(** The text before stripping, for a record whose token list is cut into
    what precedes the first entity, the first entity, what lies between,
    the second entity and the rest. *)
Lemma raw_text_of_split (item : Item) (e1 e2 : entity) (A E1 M E2 R : list string) :
  entity_order item = [e1; e2] →
  token item = A ++ E1 ++ M ++ E2 ++ R →
  token_spans item e1 = (Z.of_nat (length A), Z.of_nat (length A + length E1)) →
  token_spans item e2
  = (Z.of_nat (length A + length E1 + length M),
     Z.of_nat (length A + length E1 + length M + length E2)) →
  E1 ≠ [] → (∀ t, t ∈ A → t ≠ "") →
  raw_text item
  = Py.join " " (A ++ E1) +:+ " " +:+ Py.join " " M +:+ " "
    +:+ Py.join " " E2 +:+ " " +:+ Py.join " " R.
Proof.
  intros Horder Htok Hs1 Hs2 HE1 HA.
  assert (Py.slice (token item) 0 (Z.of_nat (length A)) = A) as H0.
  { apply (slice_of_split _ [] A (E1 ++ M ++ E2 ++ R)); [done|done|simpl; lia]. }
  assert (Py.slice (token item) (Z.of_nat (length A))
            (Z.of_nat (length A + length E1)) = E1) as H1.
  { by apply (slice_of_split _ A E1 (M ++ E2 ++ R)). }
  assert (Py.slice (token item) (Z.of_nat (length A + length E1))
            (Z.of_nat (length A + length E1 + length M)) = M) as H2.
  { apply (slice_of_split _ (A ++ E1) M (E2 ++ R));
      rewrite ?length_app, <-?app_assoc; done. }
  assert (Py.slice (token item) (Z.of_nat (length A + length E1 + length M))
            (Z.of_nat (length A + length E1 + length M + length E2)) = E2) as H3.
  { apply (slice_of_split _ (A ++ E1 ++ M) E2 R);
      rewrite ?length_app, <-?app_assoc; (done || f_equal; lia). }
  assert (Py.slice_from (token item)
            (Z.of_nat (length A + length E1 + length M + length E2)) = R) as H4.
  { apply (slice_from_of_split _ (A ++ E1 ++ M ++ E2) R);
      rewrite ?length_app, <-?app_assoc; (done || f_equal; lia). }
  unfold raw_text, DatasetProcessor.run_loop. rewrite Horder. cbn [foldl].
  cbv zeta. rewrite !place_text. unfold padded, entity_text, entity_tokens.
  cbn [place DatasetProcessor.l_cur DatasetProcessor.l_text
       DatasetProcessor.loop_init].
  rewrite Hs1, Hs2. cbn [fst snd]. rewrite H0, H1, H2, H3, H4.
  change ("" +:+ ?x) with x.
  assert ((if bool_decide (Py.join " " A = "") then Py.join " " A
           else Py.join " " A +:+ " ") +:+ (Py.join " " E1 +:+ " ")
          = Py.join " " (A ++ E1) +:+ " ") as ->.
  { destruct A as [|a A'].
    - by rewrite bool_decide_eq_true_2.
    - rewrite bool_decide_eq_false_2 by (by apply join_nonempty).
      rewrite join_app by done. by rewrite !app_assoc_str. }
  rewrite bool_decide_eq_false_2.
  - by rewrite !app_assoc_str.
  - intros Hz%(f_equal Py.len). rewrite !len_app, len_space in Hz.
    pose proof (len_nonneg (Py.join " " (A ++ E1))).
    pose proof (len_nonneg (Py.join " " M)).
    change (Py.len "") with 0 in Hz. lia.
Qed.

(** The text of an example whose first entity ends at or before the start
    of the second one, both inside the token list. *)
Lemma built_text_ordered (set_type : string) (i : nat) (item : Item)
    (e1 e2 : entity) :
  entity_order item = [e1; e2] →
  0 ≤ (token_spans item e1).1 →
  (token_spans item e1).1 < (token_spans item e1).2 →
  (token_spans item e1).2 ≤ (token_spans item e2).1 →
  (token_spans item e2).1 < (token_spans item e2).2 →
  (token_spans item e2).2 ≤ Z.of_nat (length (token item)) →
  (∀ t, t ∈ token item → t ≠ "") →
  text (create_example set_type i item)
  = if decide ((token_spans item e1).2 = (token_spans item e2).1)
    then Py.rstrip (Py.join " " (Py.slice_to (token item) (token_spans item e2).1)
                    +:+ "  "
                    +:+ Py.join " " (Py.slice_from (token item) (token_spans item e2).1))
    else Py.rstrip (Py.join " " (token item)).
Proof.
  destruct (token_spans item e1) as [s1 t1] eqn:Hs1.
  destruct (token_spans item e2) as [s2 t2] eqn:Hs2. cbn [fst snd].
  intros Horder H0 H1 H2 H3 H4 Hne.
  destruct (split_at_four (token item) (Z.to_nat s1) (Z.to_nat t1) (Z.to_nat s2)
              (Z.to_nat t2)) as (A & E1 & M & E2 & R & Htok & HA & HE1 & HM & HE2);
    [lia..|].
  assert (E1 ≠ []) as HE1' by (intros ->; simpl in HE1; lia).
  assert (E2 ≠ []) as HE2' by (intros ->; simpl in HE2; lia).
  change (text (create_example set_type i item)) with (Py.rstrip (raw_text item)).
  rewrite (raw_text_of_split item e1 e2 A E1 M E2 R); try done.
  - assert (∀ X, Py.rstrip (X +:+ Py.join " " E2 +:+ " " +:+ Py.join " " R)
                 = Py.rstrip (X +:+ Py.join " " (E2 ++ R))) as Htail.
    { intros X. destruct R as [|r R'].
      - rewrite app_nil_r. cbn [Py.join concat]. change (" " +:+ "") with " ".
        rewrite <-app_assoc_str. apply rstrip_trailing_space.
      - by rewrite join_app. }
    case_decide as Hadj.
    + assert (M = []) as -> by (destruct M; [done|simpl in HM; lia]).
      rewrite (slice_to_of_split (token item) (A ++ E1) (E2 ++ R) s2);
        [|by rewrite Htok, <-app_assoc|rewrite length_app; lia].
      rewrite (slice_from_of_split (token item) (A ++ E1) (E2 ++ R) s2);
        [|by rewrite Htok, <-app_assoc|rewrite length_app; lia].
      change (Py.join " " []) with "".
      change (" " +:+ "" +:+ " " +:+ ?x) with ("  " +:+ x).
      rewrite <-(app_assoc_str (Py.join " " (A ++ E1)) "  "), Htail.
      by rewrite app_assoc_str.
    + assert (M ≠ []) as HM' by (intros ->; simpl in HM; lia).
      rewrite Htok.
      rewrite (app_assoc A E1), (join_app " " (A ++ E1)), (join_app " " M);
        [|done|by destruct E2|by destruct E1, A|by destruct M].
      rewrite <-(app_assoc_str (Py.join " " (A ++ E1)) " "),
        <-(app_assoc_str (_ +:+ " ") (Py.join " " M)),
        <-(app_assoc_str _ " " (Py.join " " E2 +:+ _)), Htail.
      by rewrite !app_assoc_str.
  - rewrite Hs1. f_equal; lia.
  - rewrite Hs2. f_equal; lia.
  - intros t Ht. apply Hne. rewrite Htok. apply elem_of_app. by left.
Qed.

(** X4: for a record whose spans are in bounds, with at least one token
    between the two entities and no empty token, the text of the example is
    the space-join of all the tokens of the record, right-stripped. *)
Theorem text_is_joined_tokens (set_type : string) (i : nat) (item : Item) :
  in_bounds item →
  subj_end item + 1 < obj_start item ∨ obj_end item + 1 < subj_start item →
  Forall (λ t, t ≠ "") (token item) →
  text (create_example set_type i item) = Py.rstrip (Py.join " " (token item)).
Proof.
  intros [(? & ? & ?) (? & ? & ?)] Hgap Hne. rewrite Forall_forall in Hne.
  destruct Hgap.
  - rewrite (built_text_ordered set_type i item subj obj);
      cbn [token_spans fst snd]; [|try lia..|done].
    + case_decide; [lia|done].
    + unfold entity_order. cbn [token_spans fst].
      by destruct (Z.ltb_spec (subj_start item) (obj_start item)); [|lia].
  - rewrite (built_text_ordered set_type i item obj subj);
      cbn [token_spans fst snd]; [|try lia..|done].
    + case_decide; [lia|done].
    + unfold entity_order. cbn [token_spans fst].
      by destruct (Z.ltb_spec (subj_start item) (obj_start item)); [lia|].
Qed.

Lemma text_is_joined_tokens_witness :
  text (create_example "train" 0 john_item)
  = Py.rstrip (Py.join " " (token john_item)).
Proof.
  apply text_is_joined_tokens.
  - unfold in_bounds. simpl. lia.
  - left. simpl. lia.
  - compute_done.
Defined.



(** ** The fields of a Features record *)

Section feature_facts.
Variable tokenizer : Tokenizer.
Variable max_mention_length : Z.
Variable use_entity_type_token : bool.
Variable use_marker_token : bool.
Variable label_list : list string.

Local Abbreviation convert_example :=
  (Encoder.convert_example tokenizer max_mention_length use_entity_type_token
     use_marker_token label_list).

Lemma getitem_type_map (t : string) :
  match getitem Encoder.type_map t with
  | Ok v => ∃ i : nat, v = Z.of_nat i + 1 ∧ ENTITY_TYPES !! i = Some t
  | KeyError key => key = t ∧ t ∉ ENTITY_TYPES
  end.
Proof.
  unfold getitem, Encoder.type_map.
  pose proof (dict_lookup (λ i : nat, Z.of_nat i + 1) ENTITY_TYPES t) as H.
  destruct (Encoder.dict_of_enumerate _ ENTITY_TYPES !! t) as [v|]; [|done].
  destruct H as (i & -> & Hi & _). by exists i.
Qed.

Lemma getitem_label_key (x : string) :
  match getitem (Encoder.label_map label_list) x with
  | Ok i => x ∈ label_list
  | KeyError key => key = x ∧ x ∉ label_list
  end.
Proof.
  pose proof (getitem_label_map label_list x) as H. unfold getitem in *.
  destruct (Encoder.label_map label_list !! x); [|done].
  destruct H as [H _]. by eapply list_elem_of_lookup_2.
Qed.

(** What a successful conversion stores in the fields other than the
    position ids and the label. *)
Lemma convert_example_fields example f :
  convert_example example = Ok f →
  let tokens := Encoder.final_tokens tokenizer use_marker_token example in
  word_ids f = convert_tokens_to_ids tokenizer tokens
  ∧ word_segment_ids f = Py.repeat 0 (Z.of_nat (length tokens))
  ∧ word_attention_mask f = Py.repeat 1 (Z.of_nat (length tokens))
  ∧ entity_segment_ids f = [0; 0]
  ∧ entity_attention_mask f = [1; 1]
  ∧ (if use_entity_type_token
     then ∃ a b, getitem Encoder.type_map (type_a example) = Ok a
                 ∧ getitem Encoder.type_map (type_b example) = Ok b
                 ∧ entity_ids f = [a; b]
     else entity_ids f = [1; 1]).
Proof.
  destruct (convert_example_unfold tokenizer max_mention_length
              use_entity_type_token use_marker_token label_list example)
    as (sa & ea & sb & eb & _ & _ & _ & _ & ->).
  intros Hf. cbv zeta. destruct use_entity_type_token.
  - destruct (getitem Encoder.type_map (type_a example)) as [a|]; [|done].
    destruct (getitem Encoder.type_map (type_b example)) as [b|]; [|done].
    destruct (getitem _ (label example)) as [l|]; [|done].
    cbn in Hf. injection Hf as <-. cbn. do 5 (split; [done|]). by exists a, b.
  - destruct (getitem _ (label example)) as [l|]; [|done].
    cbn in Hf. by injection Hf as <-.
Qed.
End feature_facts.

(** X9: in every Features record the attention mask is all ones and the
    segment ids are all zeros, one entry per token of the final sequence,
    and the entity segment ids and attention mask are [0, 0] and [1, 1].
    When the tokenizer maps the tokens to as many ids, the three word
    sequences have the same length. *)
Theorem word_sequences_parallel (tokenizer : Tokenizer) (max_mention_length : Z)
    (use_entity_type_token use_marker_token : bool) (label_list : list string)
    (example : InputExample) (f : InputFeatures) :
  Encoder.convert_example tokenizer max_mention_length use_entity_type_token
    use_marker_token label_list example = Ok f →
  let tokens := Encoder.final_tokens tokenizer use_marker_token example in
  word_attention_mask f = replicate (length tokens) 1
  ∧ word_segment_ids f = replicate (length tokens) 0
  ∧ entity_segment_ids f = [0; 0]
  ∧ entity_attention_mask f = [1; 1]
  ∧ (length (convert_tokens_to_ids tokenizer tokens) = length tokens →
     length (word_ids f) = length (word_attention_mask f)
     ∧ length (word_ids f) = length (word_segment_ids f)).
Proof.
  intros Hf.
  destruct (convert_example_fields _ _ _ _ _ _ _ Hf)
    as (Hw & Hs & Hm & He & Ha & _). cbv zeta.
  rewrite Hw, Hs, Hm, He, Ha. unfold Py.repeat. rewrite Nat2Z.id.
  do 4 (split; [done|]). intros ->. by rewrite !length_replicate.
Qed.

Lemma word_sequences_parallel_witness :
  length (word_ids (john_features [[1; 2; 3; -1]; [6; 7; 8; -1]]))
  = length (word_attention_mask (john_features [[1; 2; 3; -1]; [6; 7; 8; -1]]))
  ∧ length (word_ids (john_features [[1; 2; 3; -1]; [6; 7; 8; -1]]))
    = length (word_segment_ids (john_features [[1; 2; 3; -1]; [6; 7; 8; -1]])).
Proof.
  refine (proj2 (proj2 (proj2 (proj2
            (word_sequences_parallel words_tokenizer 4 true true john_vocabulary
               john_example (john_features [[1; 2; 3; -1]; [6; 7; 8; -1]]) _)))) _).
  - vm_compute. reflexivity.
  - vm_compute. reflexivity.
Defined.

(** X10: when entity types are encoded, the entity ids of a Features record
    are the positions of the two entity types in ENTITY_TYPES plus one, so
    they lie between 1 and 17 and are never the padding id 0; otherwise
    both entity ids are 1. *)
Theorem entity_ids_of_types (tokenizer : Tokenizer) (max_mention_length : Z)
    (use_entity_type_token use_marker_token : bool) (label_list : list string)
    (example : InputExample) (f : InputFeatures) :
  Encoder.convert_example tokenizer max_mention_length use_entity_type_token
    use_marker_token label_list example = Ok f →
  if use_entity_type_token
  then ∃ i j : nat,
         ENTITY_TYPES !! i = Some (type_a example)
         ∧ ENTITY_TYPES !! j = Some (type_b example)
         ∧ entity_ids f = [Z.of_nat i + 1; Z.of_nat j + 1]
         ∧ (i < 17)%nat ∧ (j < 17)%nat
  else entity_ids f = [1; 1].
Proof.
  intros Hf.
  destruct (convert_example_fields _ _ _ _ _ _ _ Hf) as (_ & _ & _ & _ & _ & Hids).
  destruct use_entity_type_token; [|done].
  destruct Hids as (a & b & Ha & Hb & ->).
  pose proof (getitem_type_map (type_a example)) as Ha'. rewrite Ha in Ha'.
  pose proof (getitem_type_map (type_b example)) as Hb'. rewrite Hb in Hb'.
  destruct Ha' as (i & -> & Hi), Hb' as (j & -> & Hj). exists i, j.
  do 3 (split; [done|]).
  split; [apply (lookup_lt_Some _ _ _ Hi)|apply (lookup_lt_Some _ _ _ Hj)].
Qed.

Lemma entity_ids_of_types_witness :
  ∃ i j : nat,
    ENTITY_TYPES !! i = Some (type_a john_example)
    ∧ ENTITY_TYPES !! j = Some (type_b john_example)
    ∧ entity_ids (john_features [[1; 2; 3; -1]; [6; 7; 8; -1]])
      = [Z.of_nat i + 1; Z.of_nat j + 1]
    ∧ (i < 17)%nat ∧ (j < 17)%nat.
Proof.
  apply (entity_ids_of_types words_tokenizer 4 true true john_vocabulary
           john_example (john_features [[1; 2; 3; -1]; [6; 7; 8; -1]])).
  vm_compute. reflexivity.
Defined.

(** X11: [convert_example] fails exactly when a lookup fails, and the
    KeyError names the first key that is missing, in the order type of the
    first entity, type of the second entity (both only when entity types are
    encoded), label; when none is missing it returns a Features record. *)
Theorem convert_example_error_key (tokenizer : Tokenizer) (max_mention_length : Z)
    (use_entity_type_token use_marker_token : bool) (label_list : list string)
    (example : InputExample) :
  match first_missing_key use_entity_type_token label_list example with
  | Some key =>
      Encoder.convert_example tokenizer max_mention_length use_entity_type_token
        use_marker_token label_list example = KeyError key
  | None =>
      ∃ f, Encoder.convert_example tokenizer max_mention_length
             use_entity_type_token use_marker_token label_list example = Ok f
  end.
Proof.
  destruct (convert_example_unfold tokenizer max_mention_length
              use_entity_type_token use_marker_token label_list example)
    as (sa & ea & sb & eb & _ & _ & _ & _ & ->).
  unfold first_missing_key.
  pose proof (getitem_type_map (type_a example)) as Ha.
  pose proof (getitem_type_map (type_b example)) as Hb.
  pose proof (getitem_label_key label_list (label example)) as Hl.
  assert (∀ (t : string) i, ENTITY_TYPES !! i = Some t → t ∈ ENTITY_TYPES) as Hin
    by (intros; by eapply list_elem_of_lookup_2).
  destruct use_entity_type_token; cbn [andb].
  - destruct (getitem Encoder.type_map (type_a example)) as [a|ka].
    + destruct Ha as (i & _ & Hi%Hin). rewrite bool_decide_eq_false_2 by tauto.
      destruct (getitem Encoder.type_map (type_b example)) as [b|kb].
      * destruct Hb as (j & _ & Hj%Hin). rewrite bool_decide_eq_false_2 by tauto.
        destruct (getitem _ (label example)) as [l|kl].
        -- rewrite bool_decide_eq_false_2 by tauto. by eexists.
        -- destruct Hl as [-> Hl]. by rewrite bool_decide_eq_true_2.
      * destruct Hb as [-> Hb]. by rewrite bool_decide_eq_true_2.
    + destruct Ha as [-> Ha]. by rewrite bool_decide_eq_true_2.
  - destruct (getitem _ (label example)) as [l|kl].
    + rewrite bool_decide_eq_false_2 by tauto. by eexists.
    + destruct Hl as [-> Hl]. by rewrite bool_decide_eq_true_2.
Qed.

(** X12: [convert_examples_to_features] stops at the first example that
    fails: when the examples before it convert, the result is the KeyError
    of that example, whatever follows it, and no Features are returned. *)
Theorem first_error_is_reported (tokenizer : Tokenizer) (max_mention_length : Z)
    (use_entity_type_token use_marker_token : bool) (label_list : list string)
    (before after : list InputExample) (example : InputExample) (key : string) :
  Forall (λ x, ∃ f, Encoder.convert_example tokenizer max_mention_length
                      use_entity_type_token use_marker_token label_list x = Ok f)
         before →
  Encoder.convert_example tokenizer max_mention_length use_entity_type_token
    use_marker_token label_list example = KeyError key →
  Encoder.convert_examples_to_features tokenizer max_mention_length
    use_entity_type_token use_marker_token (before ++ example :: after) label_list
  = KeyError key.
Proof.
  intros Hbefore Hex. unfold Encoder.convert_examples_to_features.
  induction Hbefore as [|x before [f Hx] _ IH]; cbn [app for_each].
  - by rewrite Hex.
  - by rewrite Hx, IH.
Qed.

Lemma first_error_is_reported_witness :
  Encoder.convert_examples_to_features words_tokenizer 4 true true
    ([john_example] ++ untyped_example :: [john_example]) john_vocabulary
  = KeyError "HUMAN".
Proof.
  apply first_error_is_reported.
  - constructor; [|constructor].
    exists (john_features [[1; 2; 3; -1]; [6; 7; 8; -1]]). vm_compute. reflexivity.
  - vm_compute. reflexivity.
Defined.

(** ** Token ranges *)

Section range_facts.
Variable tokenizer : Tokenizer.
Variable use_marker_token : bool.

(** The two token ranges, in processing order: the first starts after the
    classification token, the second starts where the first has ended or
    later, and ends before the separator token. *)
Lemma token_spans_layout example :
  ∃ n1 n2 (s1 e1 s2 e2 : Z),
    n1 ≠ n2 ∧ Encoder.span_order example = [n1; n2]
    ∧ Encoder.token_span tokenizer use_marker_token example n1 = Ok (s1, e1)
    ∧ Encoder.token_span tokenizer use_marker_token example n2 = Ok (s2, e2)
    ∧ 1 ≤ s1 ∧ s1 ≤ e1 ∧ e1 ≤ s2 ∧ s2 ≤ e2
    ∧ e2 ≤ Z.of_nat (length (Encoder.final_tokens tokenizer use_marker_token
                               example)) - 1.
Proof.
  destruct (final_tokens_layout tokenizer use_marker_token example)
    as (n1 & n2 & Hne & Ho & Htok & H1 & H2). cbv zeta in *.
  eexists n1, n2, _, _, _, _. split; [done|]. split; [done|].
  split; [exact H1|]. split; [exact H2|].
  rewrite Htok. rewrite !length_app. cbn [length]. lia.
Qed.

Lemma token_span_bounds example n :
  ∃ s e : Z,
    Encoder.token_span tokenizer use_marker_token example n = Ok (s, e)
    ∧ 1 ≤ s ∧ s ≤ e
    ∧ e ≤ Z.of_nat (length (Encoder.final_tokens tokenizer use_marker_token
                              example)) - 1.
Proof.
  destruct (token_spans_layout example)
    as (n1 & n2 & s1 & e1 & s2 & e2 & Hne & _ & H1 & H2 & ?).
  assert (n = n1 ∨ n = n2) as [->| ->] by (destruct n, n1, n2; auto; done).
  - exists s1, e1. split; [done|lia].
  - exists s2, e2. split; [done|lia].
Qed.
End range_facts.

Lemma range_elem (a b k : Z) : k ∈ Py.range a b → a ≤ k ∧ k < b.
Proof.
  unfold Py.range. intros (j & -> & Hj%elem_of_seq)%list_elem_of_fmap. lia.
Qed.

(** Whatever the number of slots, an entry is either the padding or an
    index of the range. *)
Lemma position_ids_range (M s e k : Z) :
  k ∈ Encoder.position_ids M (s, e) → k = -1 ∨ s ≤ k ∧ k < e.
Proof.
  unfold Encoder.position_ids, Py.slice_to, Py.repeat. cbv zeta. cbn [fst snd].
  intros [Hk|Hk]%elem_of_app.
  - right. apply range_elem. by eapply subseteq_take.
  - left. by apply elem_of_replicate in Hk as [-> _].
Qed.

(** X13: without marker tokens the token range recorded for a span covers
    exactly the subword tokens of the text of the span: slicing the final
    token sequence by the range gives them back. *)
Theorem token_range_without_markers (tokenizer : Tokenizer)
    (example : InputExample) (n : Encoder.span_name) :
  ∃ s e : Z,
    Encoder.token_span tokenizer false example n = Ok (s, e)
    ∧ Py.slice (Encoder.final_tokens tokenizer false example) s e
      = Encoder.tokenize tokenizer
          (Py.str_slice (text example) (Encoder.getattr example n).1
                        (Encoder.getattr example n).2).
Proof.
  destruct (token_span_decomposition tokenizer false example n)
    as (pre & post & -> & ->).
  eexists _, _. split; [done|]. rewrite Nat2Z.inj_add, slice_middle.
  unfold segment, markers. by rewrite app_nil_r.
Qed.

(** X14: the final token sequence starts with the classification token and
    ends with the separator token, and no entity position id points at
    either of them: every entry of entity_position_ids is -1 or an index
    from 1 to the length of the sequence minus 2. *)
Theorem position_ids_inside_sequence (tokenizer : Tokenizer)
    (max_mention_length : Z) (use_entity_type_token use_marker_token : bool)
    (label_list : list string) (example : InputExample) (f : InputFeatures) :
  Encoder.convert_example tokenizer max_mention_length use_entity_type_token
    use_marker_token label_list example = Ok f →
  let tokens := Encoder.final_tokens tokenizer use_marker_token example in
  head tokens = Some (cls_token tokenizer)
  ∧ last tokens = Some (sep_token tokenizer)
  ∧ Forall (Forall (λ k, k = -1 ∨ 1 ≤ k ∧ k < Z.of_nat (length tokens) - 1))
           (entity_position_ids f).
Proof.
  intros Hf. cbv zeta.
  destruct (final_tokens_layout tokenizer use_marker_token example)
    as (n1 & n2 & _ & _ & Htok & _). cbv zeta in Htok.
  split; [by rewrite Htok|]. split.
  { rewrite Htok, !app_assoc. apply last_snoc. }
  destruct (convert_example_Ok _ _ _ _ _ _ _ Hf)
    as (sa & ea & sb & eb & Ha & Hb & _ & _ & -> & _).
  destruct (token_span_bounds tokenizer use_marker_token example
              Encoder.name_span_a) as (sa' & ea' & Ha' & ? & ? & ?).
  destruct (token_span_bounds tokenizer use_marker_token example
              Encoder.name_span_b) as (sb' & eb' & Hb' & ? & ? & ?).
  rewrite Ha in Ha'. rewrite Hb in Hb'. simplify_eq.
  repeat constructor; apply Forall_forall; intros k Hk%position_ids_range; lia.
Qed.

Lemma position_ids_inside_sequence_witness :
  head (Encoder.final_tokens words_tokenizer true john_example) = Some "[CLS]"
  ∧ last (Encoder.final_tokens words_tokenizer true john_example) = Some "[SEP]"
  ∧ Forall (Forall (λ k, k = -1
                         ∨ 1 ≤ k
                           ∧ k < Z.of_nat (length (Encoder.final_tokens
                                                     words_tokenizer true
                                                     john_example)) - 1))
           (entity_position_ids (john_features [[1; 2; 3; -1]; [6; 7; 8; -1]])).
Proof.
  apply (position_ids_inside_sequence words_tokenizer 4 true true john_vocabulary
           john_example (john_features [[1; 2; 3; -1]; [6; 7; 8; -1]])).
  vm_compute. reflexivity.
Defined.

(** X15: the token ranges of the two spans never overlap: the range of the
    span that is processed first ends at or before the start of the range
    of the other one. *)
Theorem token_ranges_disjoint (tokenizer : Tokenizer) (use_marker_token : bool)
    (example : InputExample) :
  ∃ sa ea sb eb : Z,
    Encoder.token_span tokenizer use_marker_token example Encoder.name_span_a
    = Ok (sa, ea)
    ∧ Encoder.token_span tokenizer use_marker_token example Encoder.name_span_b
      = Ok (sb, eb)
    ∧ sa ≤ ea ∧ sb ≤ eb
    ∧ if (span_a example).2 <? (span_b example).2 then ea ≤ sb else eb ≤ sa.
Proof.
  destruct (token_spans_layout tokenizer use_marker_token example)
    as (n1 & n2 & s1 & e1 & s2 & e2 & _ & Ho & H1 & H2 & ?).
  unfold Encoder.span_order in Ho.
  destruct ((span_a example).2 <? (span_b example).2); simplify_eq.
  - exists s1, e1, s2, e2. split; [done|]. split; [done|]. lia.
  - exists s2, e2, s1, e1. split; [done|]. split; [done|]. lia.
Qed.

Lemma filter_all {A} (P : A → Prop) `{!∀ x, Decision (P x)} (l : list A) :
  Forall P l → filter P l = l.
Proof.
  induction 1 as [|x l Hx _ IH]; [done|]. by rewrite filter_cons_True, IH.
Qed.

Lemma filter_marker (n : Encoder.span_name) (l : list string) :
  filter (λ t, t ≠ HEAD_TOKEN ∧ t ≠ TAIL_TOKEN) (Encoder.marker n :: l)
  = filter (λ t, t ≠ HEAD_TOKEN ∧ t ≠ TAIL_TOKEN) l.
Proof.
  apply filter_cons_False. unfold Encoder.marker. case_decide; tauto.
Qed.

(** X16: marker tokens add exactly four tokens to the final sequence, and
    nothing else changes: when the sequence built without markers contains
    neither [HEAD] nor [TAIL], removing these two tokens from the sequence
    built with markers gives the sequence built without them. *)
Theorem markers_add_four_tokens (tokenizer : Tokenizer) (example : InputExample) :
  length (Encoder.final_tokens tokenizer true example)
  = (length (Encoder.final_tokens tokenizer false example) + 4)%nat
  ∧ (Forall (λ t, t ≠ HEAD_TOKEN ∧ t ≠ TAIL_TOKEN)
            (Encoder.final_tokens tokenizer false example) →
     filter (λ t, t ≠ HEAD_TOKEN ∧ t ≠ TAIL_TOKEN)
            (Encoder.final_tokens tokenizer true example)
     = Encoder.final_tokens tokenizer false example).
Proof.
  destruct (final_tokens_layout tokenizer true example)
    as (n1 & n2 & _ & Ho & -> & _).
  destruct (final_tokens_layout tokenizer false example)
    as (n1' & n2' & _ & Ho' & -> & _).
  rewrite Ho in Ho'. injection Ho' as <- <-.
  unfold segment, markers. split.
  - rewrite !length_app. cbn [length]. lia.
  - intros Hall. rewrite <-(filter_all _ _ Hall).
    rewrite !filter_app, !filter_marker. done.
Qed.

Lemma markers_add_four_tokens_witness :
  filter (λ t, t ≠ HEAD_TOKEN ∧ t ≠ TAIL_TOKEN)
         (Encoder.final_tokens words_tokenizer true john_example)
  = Encoder.final_tokens words_tokenizer false john_example.
Proof.
  refine (proj2 (markers_add_four_tokens words_tokenizer john_example) _).
  compute_done.
Defined.

(** ** The label vocabulary and the encoder *)

(** X17: for a label vocabulary without duplicates, the label map is the
    inverse of the list: a label is mapped to i exactly when it is entry i
    of the vocabulary. *)
Theorem label_map_inverts_vocabulary (label_list : list string) (l : string)
    (i : nat) :
  NoDup label_list →
  getitem (Encoder.label_map label_list) l = Ok i ↔ label_list !! i = Some l.
Proof.
  intros Hnd. pose proof (getitem_label_map label_list l) as H. split.
  - intros Hi. rewrite Hi in H. by destruct H.
  - intros Hi. destruct (getitem (Encoder.label_map label_list) l) as [j|key].
    + destruct H as [Hj _]. f_equal. by eapply NoDup_lookup.
    + destruct H. by eapply list_elem_of_lookup_2.
Qed.

Lemma label_map_inverts_vocabulary_witness :
  getitem (Encoder.label_map john_vocabulary) "lives_in" = Ok 1%nat
  ↔ john_vocabulary !! 1%nat = Some "lives_in".
Proof. apply label_map_inverts_vocabulary. compute_done. Defined.

Lemma train_example_labels (train : list Item) (l : string) :
  (∃ example, example ∈ get_train_examples train ∧ label example = l)
  ↔ l ∈ relation <$> train.
Proof.
  unfold get_train_examples, _create_examples.
  rewrite list_elem_of_fmap. split.
  - intros (example & (i & item & -> & Hi)%elem_of_lookup_imap & <-).
    exists item. split; [done|]. by eapply list_elem_of_lookup_2.
  - intros (item & -> & (i & Hi)%list_elem_of_lookup).
    exists (create_example "train" i item). split; [|done].
    by apply (elem_of_lookup_imap_2 (create_example "train")).
Qed.

(** The labels after no_relation, as a set. *)
Lemma get_label_list_tail (train : list Item) :
  ∃ labels : gset string,
    get_label_list train = "no_relation" :: merge_sort String.le (elements labels)
    ∧ ∀ l, l ∈ labels ↔ l ≠ "no_relation" ∧ l ∈ relation <$> train.
Proof.
  unfold get_label_list. cbv zeta. eexists. split; [done|]. intros l.
  rewrite elem_of_difference, labels_fold, elem_of_singleton, train_example_labels.
  split.
  - intros [[Hin|?] ?]; [by apply elem_of_empty in Hin|done].
  - intros [? ?]. split; [by right|done].
Qed.

Lemma get_label_list_elem (train : list Item) (l : string) :
  l ∈ get_label_list train ↔ l = "no_relation" ∨ l ∈ relation <$> train.
Proof.
  destruct (get_label_list_tail train) as (labels & -> & Hl).
  rewrite elem_of_cons, merge_sort_Permutation, elem_of_elements, Hl.
  destruct (decide (l = "no_relation")); tauto.
Qed.

Lemma get_label_list_NoDup (train : list Item) : NoDup (get_label_list train).
Proof.
  destruct (get_label_list_tail train) as (labels & -> & Hl).
  apply NoDup_cons. split.
  - rewrite merge_sort_Permutation, elem_of_elements, Hl. tauto.
  - rewrite merge_sort_Permutation. apply NoDup_elements.
Qed.

(** X18: the training split converts against its own label list: when
    entity types are not encoded, or every entity type of the split is one
    of ENTITY_TYPES, [convert_examples_to_features] returns one Features
    record per record; its label is the position of the record's relation
    in the label list, and it is 0 exactly when the relation is
    no_relation. *)
Theorem training_split_converts (tokenizer : Tokenizer) (max_mention_length : Z)
    (use_entity_type_token use_marker_token : bool) (train : list Item) :
  (use_entity_type_token = true →
   Forall (λ item, subj_type item ∈ ENTITY_TYPES ∧ obj_type item ∈ ENTITY_TYPES)
          train) →
  ∃ features,
    Encoder.convert_examples_to_features tokenizer max_mention_length
      use_entity_type_token use_marker_token (get_train_examples train)
      (get_label_list train) = Ok features
    ∧ Forall2 (λ item f,
                 get_label_list train !! f_label f = Some (relation item)
                 ∧ (f_label f = 0%nat ↔ relation item = "no_relation"))
              train features.
Proof.
  intros Hty. unfold Encoder.convert_examples_to_features.
  destruct (for_each_total
              (Encoder.convert_example tokenizer max_mention_length
                 use_entity_type_token use_marker_token (get_label_list train))
              (get_train_examples train)) as [features Hok].
  { intros example (i & item & -> & Hi)%elem_of_lookup_imap.
    apply convert_example_total; cbn [label type_a type_b create_example].
    - apply get_label_list_elem. right. apply list_elem_of_fmap.
      exists item. split; [done|]. by eapply list_elem_of_lookup_2.
    - intros Huet. specialize (Hty Huet). rewrite Forall_forall in Hty.
      apply Hty. by eapply list_elem_of_lookup_2. }
  exists features. split; [done|]. apply for_each_Ok in Hok.
  apply Forall2_same_length_lookup. split.
  - apply Forall2_length in Hok. unfold get_train_examples, _create_examples in Hok.
    by rewrite length_imap in Hok.
  - intros i item f Hi Hf.
    assert (get_train_examples train !! i = Some (create_example "train" i item))
      as Hex.
    { unfold get_train_examples, _create_examples.
      by rewrite list_lookup_imap, Hi. }
    pose proof (Forall2_lookup_lr _ _ _ _ _ _ Hok Hex Hf) as Hconv.
    cbv beta in Hconv.
    destruct (convert_example_Ok _ _ _ _ _ _ _ Hconv)
      as (_ & _ & _ & _ & _ & _ & _ & _ & _ & Hlabel & _).
    pose proof (getitem_label_map (get_label_list train)
                  (label (create_example "train" i item))) as H.
    rewrite Hlabel in H. destruct H as [H _]. cbn [label create_example] in H.
    split; [done|]. split.
    + intros H0. rewrite H0 in H.
      destruct (get_label_list_tail train) as (labels & Heq & _).
      rewrite Heq in H. by injection H as <-.
    + intros Hrel. rewrite Hrel in H.
      eapply (NoDup_lookup _ _ _ _ (get_label_list_NoDup train)); [exact H|].
      destruct (get_label_list_tail train) as (labels & -> & _). done.
Qed.

Lemma training_split_converts_witness :
  ∃ features,
    Encoder.convert_examples_to_features words_tokenizer 4 true true
      (get_train_examples [john_item]) (get_label_list [john_item]) = Ok features
    ∧ Forall2 (λ item f,
                 get_label_list [john_item] !! f_label f = Some (relation item)
                 ∧ (f_label f = 0%nat ↔ relation item = "no_relation"))
              [john_item] features.
Proof.
  apply training_split_converts. intros _. compute_done.
Defined.

(** X19: the label list depends only on the set of relations that occur in
    the training split, not on the order of the records, on how often a
    relation occurs, or on anything else in the records. *)
Theorem label_list_depends_on_relations (train1 train2 : list Item) :
  (∀ r, r ∈ relation <$> train1 ↔ r ∈ relation <$> train2) →
  get_label_list train1 = get_label_list train2.
Proof.
  intros Hsame.
  destruct (get_label_list_tail train1) as (labels1 & -> & H1).
  destruct (get_label_list_tail train2) as (labels2 & -> & H2).
  assert (labels1 = labels2) as ->; [|done].
  apply set_eq. intros l. rewrite H1, H2, Hsame. done.
Qed.

Lemma label_list_depends_on_relations_witness :
  get_label_list [john_item; tie_item] = get_label_list [tie_item; john_item; john_item].
Proof.
  apply label_list_depends_on_relations. intros r.
  rewrite !list_elem_of_fmap. split; intros (item & -> & Hin); exists item;
    (split; [done|]); revert Hin; rewrite !elem_of_cons, !elem_of_nil; tauto.
Defined.

(** ** The pieces of text the encoder tokenizes *)

Lemma slices_partition {A} (l : list A) (a b c d : Z) :
  0 ≤ a → a ≤ b → b ≤ c → c ≤ d →
  Py.slice l 0 a ++ Py.slice l a b ++ Py.slice l b c ++ Py.slice l c d
  ++ Py.slice_from l d = l.
Proof.
  intros Ha Hab Hbc Hcd. rewrite !slice_nonneg by lia. unfold Py.slice_from.
  rewrite norm_index_nonneg by lia.
  set (n := Z.of_nat (length l)).
  replace (Z.to_nat (Z.min 0 n)) with 0%nat by lia.
  rewrite !take_drop_piece by lia. by rewrite drop_0.
Qed.

Lemma string_of_list_ascii_app (l1 l2 : list ascii) :
  string_of_list_ascii (l1 ++ l2)
  = string_of_list_ascii l1 +:+ string_of_list_ascii l2.
Proof.
  induction l1 as [|c l1 IH]; [done|]. cbn [app string_of_list_ascii].
  by rewrite IH.
Qed.

Lemma str_slices_partition (s : string) (a b c d : Z) :
  0 ≤ a → a ≤ b → b ≤ c → c ≤ d →
  Py.str_slice s 0 a +:+ Py.str_slice s a b +:+ Py.str_slice s b c
  +:+ Py.str_slice s c d +:+ Py.str_slice_from s d = s.
Proof.
  intros Ha Hab Hbc Hcd. unfold Py.str_slice, Py.str_slice_from.
  rewrite <-!string_of_list_ascii_app, slices_partition by done.
  apply string_of_list_ascii_of_string.
Qed.

(** X20: on an example made by the builder, the five pieces of text that
    the encoder tokenizes (before the first span, the first span, between
    the spans, the second span, after it, in processing order) put together
    are the text of the example: no character is dropped and none is
    tokenized twice. *)
Theorem encoder_pieces_cover_text (set_type : string) (i : nat) (item : Item) :
  let example := create_example set_type i item in
  let a_first := (span_a example).2 <? (span_b example).2 in
  let s1 := if a_first then span_a example else span_b example in
  let s2 := if a_first then span_b example else span_a example in
  Py.str_slice (text example) 0 s1.1
  +:+ Py.str_slice (text example) s1.1 s1.2
  +:+ Py.str_slice (text example) s1.2 s2.1
  +:+ Py.str_slice (text example) s2.1 s2.2
  +:+ Py.str_slice_from (text example) s2.2
  = text example.
Proof.
  cbv zeta. destruct (char_spans_ordered item) as (e1 & e2 & Hne & _ & Hs).
  cbv zeta in Hs. cbn [create_example span_a span_b].
  set (spans := DatasetProcessor.l_char_spans (DatasetProcessor.run_loop unset item))
    in *.
  destruct (Z.ltb_spec (spans subj).2 (spans obj).2);
    apply str_slices_partition; destruct e1, e2; try done; lia.
Qed.
